(** * pygameMenu: the sound manager and the text-input widget

    A shallow embedding of [pygameMenu/sound.py] and
    [pygameMenu/widgets/textinput.py].  Python integers are [Z], Python
    text is a list of 8-bit characters, Python lists are lists indexed
    with Python's rules (negative indices count from the end, slices
    clamp), a dict with string keys is a [gmap string _].  Exceptions are
    explicit results; calls into the host library (mixer, clipboard,
    sounds, callbacks) are either arguments or entries of an effect log. *)

From Stdlib Require Import ZArith List Ascii Bool Lia QArith.
From stdpp Require Import base gmap strings list.
Import ListNotations.
Local Open Scope Z_scope.

(** ** Python built-ins used by the two files *)

Module Py.

(** Text: the characters of a Python [str], restricted to code points
    below 256. *)
Definition str := list ascii.

Definition ord (c : ascii) : Z := Z.of_N (N_of_ascii c).

Definition len {A} (l : list A) : Z := Z.of_nat (length l).

(** Exceptions that the modelled code raises or lets escape. *)
Inductive exn :=
| ValueError
| IndexError
| AssertionError
| FileNotFoundError.

(** Outcome of a call: a value, an exception, or recursion deeper than
    the fuel given to the model. *)
Inductive result (A : Type) :=
| Ok (a : A)
| Raise (e : exn)
| OutOfFuel.
Arguments Ok {A} a.
Arguments Raise {A} e.
Arguments OutOfFuel {A}.

Definition bind {A B} (r : result A) (k : A -> result B) : result B :=
  match r with
  | Ok a => k a
  | Raise e => Raise e
  | OutOfFuel => OutOfFuel
  end.

(** An index or slice bound brought into [0, n]: negative bounds count
    from the end. *)
Definition clamp_bound (n i : Z) : Z :=
  if i <? 0 then Z.max 0 (i + n) else Z.min i n.

(** [s[lo:hi]] *)
Definition slice {A} (s : list A) (lo hi : Z) : list A :=
  let n := len s in
  let l := clamp_bound n lo in
  let h := clamp_bound n hi in
  firstn (Z.to_nat (h - l)) (skipn (Z.to_nat l) s).

(** [s[:hi]] and [s[lo:]] *)
Definition slice_to {A} (s : list A) (hi : Z) : list A := slice s 0 hi.
Definition slice_from {A} (s : list A) (lo : Z) : list A := slice s lo (len s).

(** [l[i]]: [IndexError] outside [-len l, len l). *)
Definition getitem {A} (l : list A) (i : Z) : result A :=
  let n := len l in
  let j := if i <? 0 then i + n else i in
  if (j <? 0) || (n <=? j) then Raise IndexError
  else match nth_error l (Z.to_nat j) with
       | Some x => Ok x
       | None => Raise IndexError
       end.

(** [l.insert(i, x)]: the position is clamped like a slice bound. *)
Definition insert_at {A} (l : list A) (i : Z) (x : A) : list A :=
  let j := Z.to_nat (clamp_bound (len l) i) in
  firstn j l ++ x :: skipn j l.

(** [l.pop(0)] on a non-empty list (the only way the code calls it). *)
Definition pop0 {A} (l : list A) : list A := tl l.

Definition str_eqb (a b : str) : bool := bool_decide (a = b).

End Py.

Notation "'let!' x ':=' r 'in' k" := (Py.bind r (fun x => k))
  (at level 10, x name, r at level 100, k at level 200).
Notation "'let!' ( x , y ) ':=' r 'in' k" :=
  (Py.bind r (fun p => let '(x, y) := p in k))
  (at level 10, x name, y name, r at level 100, k at level 200).

(** ** sound.py *)

Module Sound.

(** Sound types *)
Definition SOUND_TYPE_CLICK_MOUSE : string := "__pygameMenu_sound_click_mouse__".
Definition SOUND_TYPE_CLOSE_MENU : string := "__pygameMenu_sound_close_menu__".
Definition SOUND_TYPE_ERROR : string := "__pygameMenu_sound_error__".
Definition SOUND_TYPE_EVENT : string := "__pygameMenu_sound_event__".
Definition SOUND_TYPE_EVENT_ERROR : string := "__pygameMenu_sound_event_error__".
Definition SOUND_TYPE_KEY_ADDITION : string := "__pygameMenu_sound_key_addition__".
Definition SOUND_TYPE_KEY_DELETION : string := "__pygameMenu_sound_key_deletion__".
Definition SOUND_TYPE_OPEN_MENU : string := "__pygameMenu_sound_open_menu__".

(** A mixer channel is a handle of the host library; [None] is Python's
    [None] (no channel available). *)
Definition Channel := nat.

(** What [_mixer.Sound(file=...)] yields: the loaded object, of which the
    code reads the length. *)
Record mixer_sound := MixerSound { sound_file : string; get_length : Q }.

(** A configured entry of [self._sound]; the empty dict [{}] is [None]. *)
Record sound_entry := SoundEntry {
  entry_file : mixer_sound;
  entry_path : string;
  entry_type : string;
  entry_length : Q;
  entry_volume : Q;
  entry_loops : Z;
  entry_maxtime : Q;
  entry_fade_ms : Q
}.

Record Sound := mkSound {
  _channel : option Channel;
  _uniquechannel : bool;
  _type_sounds : list string;
  _sound : gmap string (option sound_entry);
  _last_play : option string;
  _last_time : Q
}.

Definition set_channel (self : Sound) (c : option Channel) : Sound :=
  mkSound c (_uniquechannel self) (_type_sounds self) (_sound self)
          (_last_play self) (_last_time self).

Definition set_sound_entry (self : Sound) (k : string) (e : option sound_entry) : Sound :=
  mkSound (_channel self) (_uniquechannel self) (_type_sounds self)
          (<[k := e]> (_sound self)) (_last_play self) (_last_time self).

Definition type_sounds : list string :=
  [ SOUND_TYPE_CLICK_MOUSE; SOUND_TYPE_CLOSE_MENU; SOUND_TYPE_ERROR;
    SOUND_TYPE_EVENT; SOUND_TYPE_EVENT_ERROR; SOUND_TYPE_KEY_ADDITION;
    SOUND_TYPE_KEY_DELETION; SOUND_TYPE_OPEN_MENU ].

(** [Sound.__init__]: the mixer initialisation belongs to the host; the
    object starts without a channel and with one empty entry per type. *)
Definition __init__ (uniquechannel : bool) : Sound :=
  mkSound None uniquechannel type_sounds
          (foldl (fun d s => <[s := None]> d) ∅ type_sounds)
          None 0%Q.

(** [Sound.get_channel]; [found] is what [_mixer.find_channel()] returns
    at this call. *)
Definition get_channel (self : Sound) (found : option Channel)
  : Sound * option Channel :=
  let channel := found in
  let self :=
    if _uniquechannel self then
      match _channel self with
      | None => set_channel self channel
      | Some _ => self
      end
    else set_channel self channel in
  (self, _channel self).


Section SetSound.

(** The host functions [os.path.isfile] and [pygame.mixer.Sound]; the
    latter answers [None] when it raises [pygame.error]. *)
Variable isfile : string -> bool.
Variable mixer_Sound : string -> option mixer_sound.

(** The value assertions at the head of [set_sound] (the [isinstance]
    ones are the types of the arguments). *)
Definition set_sound_asserts (volume : Q) (loops : Z) (maxtime fade_ms : Q) : bool :=
  (0 <=? loops) && Qle_bool 0 maxtime && Qle_bool 0 fade_ms
  && (Qle_bool volume 1 && Qle_bool 0 volume).

(** [Sound.set_sound]; the object after the call comes with the outcome,
    since an exception leaves the object as it was when raised. *)
Definition set_sound (self : Sound) (sound : string) (file : option string)
    (volume : Q) (loops : Z) (maxtime fade_ms : Q) : Sound * Py.result unit :=
  if negb (set_sound_asserts volume loops maxtime fade_ms) then
    (self, Py.Raise Py.AssertionError)
  else if negb (bool_decide (sound ∈ _type_sounds self)) then
    (self, Py.Raise Py.ValueError)
  else match file with
  | None => (set_sound_entry self sound None, Py.Ok tt)
  | Some file =>
      if negb (isfile file) then (self, Py.Raise Py.FileNotFoundError)
      else match mixer_Sound file with
      | None => (set_sound_entry self sound None, Py.Ok tt)
      | Some sound_data =>
          (set_sound_entry self sound
             (Some (SoundEntry sound_data file sound (get_length sound_data)
                               volume loops maxtime fade_ms)),
           Py.Ok tt)
      end
  end.

End SetSound.

(** A host without sound files, for closed examples. *)
Definition no_file : string -> bool := fun _ => false.
Definition no_mixer_sound : string -> option mixer_sound := fun _ => None.

(** *** Playing *)

(** What [_play_sound] asks of a channel. *)
Inductive mixer_call :=
| channel_stop (c : Channel)
| channel_play (c : Channel) (file : mixer_sound) (loops : Z)
               (maxtime fade_ms : Q).

Definition set_last (self : Sound) (type_ : option string) (time : Q) : Sound :=
  mkSound (_channel self) (_uniquechannel self) (_type_sounds self)
          (_sound self) type_ time.

Section Playing.

(** The floating-point test [time - last_time >= 0.2 * length], left to
    the host: arguments [time], [last_time], [length]. *)
Variable elapsed : Q -> Q -> Q -> bool.

(** [Sound._play_sound(sound)]: [sound] is an entry of [self._sound],
    [found] what [_mixer.find_channel()] answers if it is asked, [time]
    what [time.time()] answers if it is asked.  The result is the object
    and the calls made on the channel, in order. *)
Definition _play_sound (self : Sound) (sound : option sound_entry)
    (found : option Channel) (time : Q) : Sound * list mixer_call :=
  match sound with
  | None => (set_channel self None, [])
  | Some sound =>
      let '(self, channel) := get_channel self found in
      match channel with
      | None => (self, [])
      | Some channel =>
          let calls :=
            if negb (bool_decide (_last_play self = Some (entry_type sound)))
               || elapsed time (_last_time self) (entry_length sound)
               || _uniquechannel self
            then
              (if _uniquechannel self then [channel_stop channel] else [])
              ++ [channel_play channel (entry_file sound) (entry_loops sound)
                               (entry_maxtime sound) (entry_fade_ms sound)]
            else [] in
          (set_last self (Some (entry_type sound)) time, calls)
      end
  end.

(** [self._play_sound(self._sound[type_])], the body of the eight
    [play_...] methods; [None] stands for the [KeyError] of a missing
    key. *)
Definition play (type_ : string) (self : Sound) (found : option Channel)
    (time : Q) : option (Sound * list mixer_call) :=
  match _sound self !! type_ with
  | Some sound => Some (_play_sound self sound found time)
  | None => None
  end.

Definition play_click_mouse := play SOUND_TYPE_CLICK_MOUSE.
Definition play_error := play SOUND_TYPE_ERROR.
Definition play_event := play SOUND_TYPE_EVENT.
Definition play_event_error := play SOUND_TYPE_EVENT_ERROR.
Definition play_key_add := play SOUND_TYPE_KEY_ADDITION.
Definition play_key_del := play SOUND_TYPE_KEY_DELETION.
Definition play_open_menu := play SOUND_TYPE_OPEN_MENU.
Definition play_close_menu := play SOUND_TYPE_CLOSE_MENU.

End Playing.

(** *** Example sounds *)

(** The names behind [PYGAMEMENU_SOUND_EXAMPLE_...], in the order of the
    sound types, and the path built from the package directory. *)
Definition example_names : list string :=
  [ "click_mouse"; "close_menu"; "error"; "event"; "event_error";
    "key_add"; "key_delete"; "open_menu" ].

Definition example_path (actualpath name : string) : string :=
  actualpath +:+ "/sounds/" +:+ name +:+ ".ogg".

Section Examples.

Variable isfile : string -> bool.
Variable mixer_Sound : string -> option mixer_sound.

(** The entry [set_sound] leaves for an existing file when it is called
    with a volume only. *)
Definition loaded (sound file : string) (volume : Q) : option sound_entry :=
  match mixer_Sound file with
  | Some d => Some (SoundEntry d file sound (get_length d) volume 0 0 0)
  | None => None
  end.

(** The loop of [load_example_sounds] over the pairs of a sound type and
    its example file; an exception of [set_sound] ends it. *)
Fixpoint set_sounds (self : Sound) (pairs : list (string * string))
    (volume : Q) : Sound * Py.result unit :=
  match pairs with
  | [] => (self, Py.Ok tt)
  | (sound, file) :: pairs =>
      match set_sound isfile mixer_Sound self sound (Some file) volume 0 0 0 with
      | (self, Py.Ok _) => set_sounds self pairs volume
      | (self, r) => (self, r)
      end
  end.

(** [Sound.load_example_sounds(volume)]; [actualpath] is the directory of
    the package. *)
Definition load_example_sounds (actualpath : string) (self : Sound)
    (volume : Q) : Sound * Py.result unit :=
  set_sounds self
    (combine (_type_sounds self) (map (example_path actualpath) example_names))
    volume.

End Examples.

(** A host where every path is a sound file one second long. *)
Definition any_file : string -> bool := fun _ => true.
Definition one_second : string -> option mixer_sound :=
  fun file => Some (MixerSound file 1).

(** Every sound type has an entry (possibly the empty one), and the list
    of types is the one the constructor wrote. *)
Definition sound_wf (self : Sound) : Prop :=
  _type_sounds self = type_sounds
  /\ forall k, k ∈ type_sounds <-> is_Some (_sound self !! k).

End Sound.

(** ** widgets/textinput.py *)

Module TextInput.
Import Py.

(** The values of [pygameMenu.locals] an input can be declared with; the
    parameter is any string, so there is a case for the others. *)
Inductive input_type :=
| PYGAME_INPUT_TEXT
| PYGAME_INPUT_FLOAT
| PYGAME_INPUT_INT
| INPUT_OTHER (name : string).

(** The pygame key codes the widget tells apart. *)
Inductive key :=
| K_BACKSPACE | K_DELETE | K_RIGHT | K_LEFT | K_END | K_HOME
| K_UP | K_DOWN | K_LCTRL | K_RCTRL | K_LSHIFT | K_RSHIFT
| K_NUMLOCK | K_CAPSLOCK | K_TAB | K_RETURN | K_ESCAPE
| K_c | K_v | K_z | K_y | K_x
| K_code (code : Z).

#[global] Instance key_eq_dec : EqDecision key.
Proof. solve_decision. Defined.

(** The key bindings of [pygameMenu.config_controls] that the widget reads. *)
Record controls := Controls {
  MENU_CTRL_ENTER : key;
  MENU_CTRL_UP : key;
  MENU_CTRL_DOWN : key
}.

(** What the host reports while a [KEYDOWN] event is handled: the answer
    of [Widget.check_key_pressed_valid], whether
    [pygame.key.get_mods() & KMOD_CTRL] is set, and what [paste()] would
    return. *)
Record host := Host {
  key_pressed_valid : bool;
  mods_ctrl : bool;
  clipboard : str
}.

(** Events.  Mouse events need the widget's rectangle and font metrics and
    are among [OTHER]: the model is of a widget whose text is edited from
    the keyboard. *)
Inductive event :=
| KEYDOWN (k : key) (unicode : str) (h : host)
| KEYUP (k : key)
| OTHER.

(** Calls that leave the widget: sounds, the [change] and [apply]
    callbacks of [Widget], the clipboard, the event queue. *)
Inductive effect :=
| play_event_error
| play_key_del
| play_key_add
| play_open_menu
| widget_change
| widget_apply
| copy (text : str)
| event_pump.

(** [self._renderbox = [left, right, inner]] *)
Record renderbox := RB { rb0 : Z; rb1 : Z; rb2 : Z }.

Record TextInput := mkTextInput {
  _input_string : str;
  _ignore_keys : list key;
  _block_copy_paste : bool;
  _key_is_pressed : bool;
  _last_key : option key;
  _ellipsis : str;
  _renderbox : renderbox;
  _cursor_position : Z;
  _cursor_render : bool;
  _cursor_visible : bool;
  _history : list str;
  _history_cursor : list Z;
  _history_renderbox : list renderbox;
  _history_index : Z;
  _max_history : Z;
  _input_type : input_type;
  _maxchar : Z;
  _maxwidth : Z;
  effects : list effect
}.

(** Attribute assignments. *)
Definition set_input_string (t : TextInput) (v : str) : TextInput :=
  mkTextInput v (_ignore_keys t) (_block_copy_paste t) (_key_is_pressed t)
    (_last_key t) (_ellipsis t) (_renderbox t) (_cursor_position t)
    (_cursor_render t) (_cursor_visible t) (_history t) (_history_cursor t)
    (_history_renderbox t) (_history_index t) (_max_history t) (_input_type t)
    (_maxchar t) (_maxwidth t) (effects t).

Definition set_block_copy_paste (t : TextInput) (v : bool) : TextInput :=
  mkTextInput (_input_string t) (_ignore_keys t) v (_key_is_pressed t)
    (_last_key t) (_ellipsis t) (_renderbox t) (_cursor_position t)
    (_cursor_render t) (_cursor_visible t) (_history t) (_history_cursor t)
    (_history_renderbox t) (_history_index t) (_max_history t) (_input_type t)
    (_maxchar t) (_maxwidth t) (effects t).

Definition set_key_state (t : TextInput) (visible pressed : bool)
    (last : option key) : TextInput :=
  mkTextInput (_input_string t) (_ignore_keys t) (_block_copy_paste t) pressed
    last (_ellipsis t) (_renderbox t) (_cursor_position t)
    (_cursor_render t) visible (_history t) (_history_cursor t)
    (_history_renderbox t) (_history_index t) (_max_history t) (_input_type t)
    (_maxchar t) (_maxwidth t) (effects t).

Definition set_renderbox (t : TextInput) (v : renderbox) : TextInput :=
  mkTextInput (_input_string t) (_ignore_keys t) (_block_copy_paste t)
    (_key_is_pressed t) (_last_key t) (_ellipsis t) v (_cursor_position t)
    (_cursor_render t) (_cursor_visible t) (_history t) (_history_cursor t)
    (_history_renderbox t) (_history_index t) (_max_history t) (_input_type t)
    (_maxchar t) (_maxwidth t) (effects t).

Definition set_cursor_position (t : TextInput) (v : Z) : TextInput :=
  mkTextInput (_input_string t) (_ignore_keys t) (_block_copy_paste t)
    (_key_is_pressed t) (_last_key t) (_ellipsis t) (_renderbox t) v
    (_cursor_render t) (_cursor_visible t) (_history t) (_history_cursor t)
    (_history_renderbox t) (_history_index t) (_max_history t) (_input_type t)
    (_maxchar t) (_maxwidth t) (effects t).

Definition set_cursor_render (t : TextInput) (v : bool) : TextInput :=
  mkTextInput (_input_string t) (_ignore_keys t) (_block_copy_paste t)
    (_key_is_pressed t) (_last_key t) (_ellipsis t) (_renderbox t)
    (_cursor_position t) v (_cursor_visible t) (_history t) (_history_cursor t)
    (_history_renderbox t) (_history_index t) (_max_history t) (_input_type t)
    (_maxchar t) (_maxwidth t) (effects t).

Definition set_history (t : TextInput) (h : list str) (hc : list Z)
    (hr : list renderbox) : TextInput :=
  mkTextInput (_input_string t) (_ignore_keys t) (_block_copy_paste t)
    (_key_is_pressed t) (_last_key t) (_ellipsis t) (_renderbox t)
    (_cursor_position t) (_cursor_render t) (_cursor_visible t) h hc hr
    (_history_index t) (_max_history t) (_input_type t)
    (_maxchar t) (_maxwidth t) (effects t).

Definition set_history_index (t : TextInput) (v : Z) : TextInput :=
  mkTextInput (_input_string t) (_ignore_keys t) (_block_copy_paste t)
    (_key_is_pressed t) (_last_key t) (_ellipsis t) (_renderbox t)
    (_cursor_position t) (_cursor_render t) (_cursor_visible t) (_history t)
    (_history_cursor t) (_history_renderbox t) v (_max_history t)
    (_input_type t) (_maxchar t) (_maxwidth t) (effects t).

(** A call out of the widget, appended to the log. *)
Definition emit (t : TextInput) (e : effect) : TextInput :=
  mkTextInput (_input_string t) (_ignore_keys t) (_block_copy_paste t)
    (_key_is_pressed t) (_last_key t) (_ellipsis t) (_renderbox t)
    (_cursor_position t) (_cursor_render t) (_cursor_visible t) (_history t)
    (_history_cursor t) (_history_renderbox t) (_history_index t)
    (_max_history t) (_input_type t) (_maxchar t) (_maxwidth t)
    (effects t ++ [e]).

(** [TextInput.clear] *)
Definition clear (self : TextInput) : TextInput :=
  set_cursor_position (set_input_string self []) 0.

(** [TextInput.set_value] *)
Definition set_value (self : TextInput) (text : str) : TextInput :=
  set_input_string self text.

(** [TextInput._get_input_string] *)
Definition _get_input_string (self : TextInput) : str :=
  if negb (_maxwidth self =? 0) && (_maxwidth self <? len (_input_string self)) then
    let text := slice (_input_string self) (rb0 (_renderbox self)) (rb1 (_renderbox self)) in
    let text :=
      if negb (rb1 (_renderbox self) =? len (_input_string self))
      then text ++ _ellipsis self else text in
    let text :=
      if negb (rb0 (_renderbox self) =? 0)
      then _ellipsis self ++ text else text in
    text
  else _input_string self.

(** [TextInput._check_input_size] *)
Definition _check_input_size (self : TextInput) : bool :=
  if _maxchar self =? 0 then false
  else _maxchar self <? len (_input_string self).

(** In-place updates of the three cells of the render box. *)
Definition rb_add0 (b : renderbox) (d : Z) := RB (rb0 b + d) (rb1 b) (rb2 b).
Definition rb_add1 (b : renderbox) (d : Z) := RB (rb0 b) (rb1 b + d) (rb2 b).
Definition rb_add2 (b : renderbox) (d : Z) := RB (rb0 b) (rb1 b) (rb2 b + d).
Definition rb_set0 (b : renderbox) (v : Z) := RB v (rb1 b) (rb2 b).
Definition rb_set1 (b : renderbox) (v : Z) := RB (rb0 b) v (rb2 b).

(** The block under [# Apply limits]. *)
Definition apply_limits (w ls : Z) (b : renderbox) : renderbox :=
  RB (Z.max 0 (rb0 b)) (Z.max 0 (rb1 b))
     (Z.max 0 (Z.min (rb2 b) (Z.min w ls))).

(** [TextInput._update_renderbox(left, right, addition, end, start)] *)
Definition _update_renderbox (self : TextInput) (left right : Z)
    (addition end_ start : bool) : TextInput :=
  let self := set_cursor_render self true in
  let w := _maxwidth self in
  if w =? 0 then self else
  let ls := len (_input_string self) in
  let b := _renderbox self in
  (* Move cursor to end *)
  if end_ then set_renderbox self (RB (Z.max 0 (ls - w)) ls (Z.min ls w))
  (* Move cursor to start *)
  else if start then set_renderbox self (RB 0 (Z.min ls w) 0)
  (* Check limits *)
  else if (left <? 0) && (ls =? 0) then self
  (* If no overflow *)
  else if ls <=? w then
    if (right <? 0) && (rb2 b =? ls) then self
    else
      let b := rb_set0 b 0 in
      let b :=
        if addition then
          let b := if left <? 0 then rb_add1 b left else b in
          let b := rb_add1 b right in
          if right <? 0 then rb_add2 b (- right) else b
        else b in
      let b := rb_add2 b left in
      let b := rb_add2 b right in
      set_renderbox self (apply_limits w ls b)
  else
    if addition && (right <? 0) && (rb2 b =? w) then self
    else if addition && (left <? 0) && (rb2 b =? 0) then self
    else
      let b :=
        if addition then
          let b :=
            if (right <? 0) && negb (rb0 b =? 0) && (rb1 b - 1 =? ls)
            then rb_add2 b (- right) else b in
          let b :=
            if 0 <? right then
              let b := if rb2 b =? w
                       then rb_add1 (rb_add0 b right) right else b in
              rb_add2 b right
            else b in
          if left <? 0 then
            let b := if rb0 b =? 0 then rb_add2 b left else b in
            rb_add1 (rb_add0 b left) left
          else b
        else b in
      let b :=
        if negb addition then
          let b := rb_add2 b right in
          let b := rb_add2 b left in
          let b := if rb2 b <? 0
                   then rb_add1 (rb_add0 b left) left else b in
          if w <? rb2 b then rb_add1 (rb_add0 b right) right else b
        else b in
      (* Apply string limits *)
      let b := rb_set1 b (Z.max w (Z.min (rb1 b) ls)) in
      let b := rb_set0 b (rb1 b - w) in
      set_renderbox self (apply_limits w ls b).

(** [TextInput._move_cursor_left] *)
Definition _move_cursor_left (self : TextInput) : TextInput :=
  let self := set_cursor_position self (Z.max (_cursor_position self - 1) 0) in
  _update_renderbox self (-1) 0 false false false.

(** [TextInput._move_cursor_right] *)
Definition _move_cursor_right (self : TextInput) : TextInput :=
  let self := set_cursor_position self
                (Z.min (_cursor_position self + 1) (len (_input_string self))) in
  _update_renderbox self 0 1 false false false.

(** The block under [# Add new status to history] of
    [_update_input_string]: the edition goes in at the index, with the
    cursor and a copy of the render box; the oldest edition is dropped
    when there are more than [_max_history]; the index moves to the end. *)
Definition store_edition (self : TextInput) (new_string : str) : TextInput :=
  let i := _history_index self in
  let self :=
    set_history self
      (insert_at (_history self) i new_string)
      (insert_at (_history_cursor self) i (_cursor_position self))
      (insert_at (_history_renderbox self) i
         (RB (rb0 (_renderbox self)) (rb1 (_renderbox self))
             (rb2 (_renderbox self)))) in
  let self :=
    if _max_history self <? len (_history self) then
      set_history self (pop0 (_history self)) (pop0 (_history_cursor self))
                  (pop0 (_history_renderbox self))
    else self in
  set_history_index self (len (_history self)).

(** [TextInput._update_input_string]; the method calls itself (once the
    index has been moved to the end), so the model carries fuel. *)
Fixpoint _update_input_string_fuel (fuel : nat) (self : TextInput)
    (new_string : str) : result TextInput :=
  match fuel with
  | O => OutOfFuel
  | S fuel =>
    let l_history := len (_history self) in
    let! differs :=
      (if 0 <? l_history then
         let! last := getitem (_history self) (l_history - 1) in
         Ok (negb (str_eqb last new_string))
       else Ok false) in
    if (differs || (l_history =? 0)) && (0 <? _max_history self) then
      (* If index is not at last add the current status as new *)
      let! self :=
        (if negb (_history_index self =? l_history) then
           let! last_string := getitem (_history self) (_history_index self) in
           let self := set_history_index self (len (_history self)) in
           _update_input_string_fuel fuel self last_string
         else Ok self) in
      let self := store_edition self new_string in
      Ok (set_input_string self new_string)
    else Ok (set_input_string self new_string)
  end.

(** Two levels are all the method ever uses (see [update_input_string_fuel]). *)
Definition _update_input_string (self : TextInput) (new_string : str)
  : result TextInput :=
  _update_input_string_fuel 2 self new_string.

(** [TextInput._copy] *)
Definition _copy (self : TextInput) : TextInput * bool :=
  if _block_copy_paste self then (self, false)
  else
    let self := emit self (copy (_input_string self)) in
    (set_block_copy_paste self true, true).

(** [TextInput._cut]; it has no [return], so the caller gets [None]. *)
Definition _cut (self : TextInput) : result TextInput :=
  let self := fst (_copy self) in
  let self := set_cursor_position self 0 in
  let self := set_renderbox self (RB 0 0 0) in
  let! self := _update_input_string self [] in
  Ok (set_cursor_render self true).

(** [str.isspace] on one character, for code points below 256. *)
Definition isspace (c : ascii) : bool :=
  let n := ord c in
  ((9 <=? n) && (n <=? 13)) || ((28 <=? n) && (n <=? 32))
  || (n =? 133) || (n =? 160).

Fixpoint lstrip (s : str) : str :=
  match s with
  | c :: s' => if isspace c then lstrip s' else s
  | [] => []
  end.

(** [str.strip()] *)
Definition strip (s : str) : str := rev (lstrip (rev (lstrip s))).

(** [text.replace(c, '')] for a one-character [c]. *)
Definition remove_char (c : Z) (s : str) : str :=
  List.filter (fun a => negb (ord a =? c)) s.

(** [''.join([chr(char) for char in range(1, 32)])] *)
Definition escapes : str :=
  map (fun n => ascii_of_nat n) (seq 1 31).

(** [text.translate(table)] with a [str] as table (Python 3): a character
    becomes [table[ord(c)]], and stays as it is where that lookup raises
    [IndexError]. *)
Definition translate (table : str) (s : str) : str :=
  map (fun c => match nth_error table (Z.to_nat (ord c)) with
                | Some c' => c'
                | None => c
                end) s.

(** The text [_paste] works with, from what [paste()] returned. *)
Definition paste_text (pasted : str) : str :=
  let text := strip pasted in
  let text := remove_char 10 text in
  let text := remove_char 13 text in
  translate escapes text.

(** [TextInput._update_from_history] *)
Definition _update_from_history (self : TextInput) : result TextInput :=
  let! s := getitem (_history self) (_history_index self) in
  let self := set_input_string self s in
  let! b := getitem (_history_renderbox self) (_history_index self) in
  let self := set_renderbox self (RB (rb0 b) (rb1 b) (rb2 b)) in
  let! c := getitem (_history_cursor self) (_history_index self) in
  let self := set_cursor_position self c in
  Ok (set_cursor_render self true).

(** [TextInput._undo] *)
Definition _undo (self : TextInput) : result (TextInput * bool) :=
  if _history_index self =? 0 then Ok (self, false)
  else
    let self :=
      if _history_index self =? len (_history self)
      then set_history_index self (_history_index self - 1) else self in
    let self := set_history_index self (Z.max 0 (_history_index self - 1)) in
    let! self := _update_from_history self in
    Ok (self, true).

(** [TextInput._redo] *)
Definition _redo (self : TextInput) : result (TextInput * bool) :=
  if _history_index self =? len (_history self) - 1 then Ok (self, false)
  else
    let self := set_history_index self
                  (Z.min (len (_history self) - 1) (_history_index self + 1)) in
    let! self := _update_from_history self in
    Ok (self, true).

(** [repr(u)] contains a backslash followed by [x] or [r] because [u]
    has a backslash followed by that letter. *)
Fixpoint backslash_letter (u : str) : bool :=
  match u with
  | a :: t =>
      match t with
      | b :: _ => ((ord a =? 92) && ((ord b =? 120) || (ord b =? 114)))
                  || backslash_letter t
      | [] => false
      end
  | [] => false
  end.

(** Characters that [repr] writes as [\xNN] (not printable, and without a
    short escape), for code points below 256. *)
Definition repr_hex (c : ascii) : bool :=
  let n := ord c in
  ((n <? 32) && negb ((n =? 9) || (n =? 10) || (n =? 13)))
  || ((127 <=? n) && (n <=? 160)) || (n =? 173).

(** ['\\x' in repr(u) or '\\r' in repr(u)] *)
Definition unwanted_escape (u : str) : bool :=
  existsb (fun c => repr_hex c || (ord c =? 13)) u || backslash_letter u.

(** A value [get_value] can return. *)
Inductive value (F : Type) :=
| VStr (s : str)
| VInt (z : Z)
| VFloat (f : F).
Arguments VStr {F} s.
Arguments VInt {F} z.
Arguments VFloat {F} f.

Section Conversions.

(** Python's [int] and [float] applied to text, [None] for [ValueError];
    [F] stands for Python's floats.  The key bindings are those of the
    configuration module. *)
Context {F : Type}.
Variable py_int : str -> option Z.
Variable py_float : str -> option F.
Variable ctrl : controls.

(** [TextInput.get_value] *)
Definition get_value (self : TextInput) : value F :=
  match _input_type self with
  | PYGAME_INPUT_TEXT => VStr (_input_string self)
  | PYGAME_INPUT_FLOAT =>
      match py_float (_input_string self) with
      | Some f => VFloat f
      | None => VInt 0
      end
  | PYGAME_INPUT_INT =>
      match py_int (_input_string self) with
      | Some z => VInt z
      | None => VInt 0
      end
  | INPUT_OTHER _ => VStr []
  end.

(** [TextInput._check_input_type]; [conv] is the converter picked for
    the declared type, [conv(string)] succeeding or raising [ValueError]. *)
Definition _check_input_type (self : TextInput) (string : str) : bool :=
  if str_eqb string [] then true
  else match _input_type self with
  | PYGAME_INPUT_TEXT => true
  | t =>
      let conv : option (str -> bool) :=
        match t with
        | PYGAME_INPUT_FLOAT => Some (fun s => bool_decide (is_Some (py_int s)))
        | PYGAME_INPUT_INT => Some (fun s => bool_decide (is_Some (py_float s)))
        | _ => None
        end in
      if str_eqb string ["-"%char] then true
      else match conv with
           | None => false
           | Some conv => conv string
           end
  end.

(** [TextInput._paste]; [pasted] is what [paste()] returns. *)
Definition _paste (self : TextInput) (pasted : str) : result (TextInput * bool) :=
  if _block_copy_paste self then Ok (self, false)
  else
    let text := paste_text pasted in
    if str_eqb text [] then Ok (self, false)
    else
      let text_end := len text in
      let limited :=
        if negb (_maxchar self =? 0) then
          let char_limit := _maxchar self - len (_input_string self) + 1 in
          Z.min char_limit text_end
        else text_end in
      if negb (_maxchar self =? 0) && (limited <=? 0) then
        Ok (emit self play_event_error, false)
      else
        let text_end := limited in
        let new_string :=
          slice (_input_string self) 0 (_cursor_position self)
          ++ slice text 0 text_end
          ++ slice (_input_string self) (_cursor_position self)
                   (len (_input_string self)) in
        if _check_input_type self new_string then
          let self := emit self play_key_add in
          let self := set_input_string self new_string in
          let self := Nat.iter (Z.to_nat (len text + 1)) _move_cursor_right self in
          let! self := _update_input_string self new_string in
          let self := emit self widget_change in
          Ok (set_block_copy_paste self true, true)
        else Ok (emit self play_event_error, false).

(** The body of the [for event in events] loop of [update], with the
    local [updated]; the result is the widget and what [update] returns
    ([None] is Python's [None], which [_cut] hands back). *)
Fixpoint update_events (self : TextInput) (events : list event)
    (updated : bool) : result (TextInput * option bool) :=
  match events with
  | [] => Ok (self, Some updated)
  | KEYDOWN k unicode h :: events =>
      if negb (key_pressed_valid h) then update_events self events updated
      else
        let self := set_key_state self true true (Some k) in
        if mods_ctrl h then
          match k with
          | K_c => let '(self, r) := _copy self in Ok (self, Some r)
          | K_v => let! (self, r) := _paste self (clipboard h) in
                   Ok (self, Some r)
          | K_z => let! (self, r) := _undo (emit self play_key_del) in
                   Ok (self, Some r)
          | K_y => let! (self, r) := _redo (emit self play_key_add) in
                   Ok (self, Some r)
          | K_x => let! self := _cut (emit self play_key_del) in
                   Ok (self, None)
          | _ => Ok (self, Some false)
          end
        else if bool_decide (k = K_BACKSPACE) then
          let self :=
            if _cursor_position self =? 0 then emit self play_event_error
            else emit self play_key_del in
          let new_string :=
            slice_to (_input_string self) (Z.max (_cursor_position self - 1) 0)
            ++ slice_from (_input_string self) (_cursor_position self) in
          let! self := _update_input_string self new_string in
          let self := _update_renderbox self (-1) 0 true false false in
          let self := emit self widget_change in
          let self := set_cursor_position self
                        (Z.max (_cursor_position self - 1) 0) in
          update_events self events true
        else if bool_decide (k = K_DELETE) then
          let self :=
            if _cursor_position self =? len (_input_string self)
            then emit self play_event_error else emit self play_key_del in
          let new_string :=
            slice_to (_input_string self) (_cursor_position self)
            ++ slice_from (_input_string self) (_cursor_position self + 1) in
          let! self := _update_input_string self new_string in
          let self := _update_renderbox self 0 (-1) true false false in
          let self := emit self widget_change in
          update_events self events true
        else if bool_decide (k = K_RIGHT) then
          let self :=
            if _cursor_position self =? len (_input_string self)
            then emit self play_event_error else emit self play_key_add in
          update_events (_move_cursor_right self) events true
        else if bool_decide (k = K_LEFT) then
          let self :=
            if _cursor_position self =? 0 then emit self play_event_error
            else emit self play_key_add in
          update_events (_move_cursor_left self) events true
        else if bool_decide (k = K_END) then
          let self := emit self play_key_add in
          let self := set_cursor_position self (len (_input_string self)) in
          update_events (_update_renderbox self 0 0 false true false) events true
        else if bool_decide (k = K_HOME) then
          let self := emit self play_key_add in
          let self := set_cursor_position self 0 in
          update_events (_update_renderbox self 0 0 false false true) events true
        else if bool_decide (k = MENU_CTRL_ENTER ctrl) then
          let self := emit self play_open_menu in
          update_events (emit self widget_apply) events true
        else if negb (bool_decide (k ∈ _ignore_keys self)) then
          (* Check input exceeded the limit returns *)
          if _check_input_size self then
            Ok (emit self play_event_error, Some updated)
          else
            let new_string :=
              slice_to (_input_string self) (_cursor_position self)
              ++ unicode
              ++ slice_from (_input_string self) (_cursor_position self) in
            if unwanted_escape unicode then
              Ok (emit self event_pump, Some false)
            else if _check_input_type self new_string then
              if 0 <? len unicode then
                let self := emit self play_key_add in
                let self := set_cursor_position self (_cursor_position self + 1) in
                let self := set_input_string self new_string in
                let self := _update_renderbox self 0 1 true false false in
                let! self := _update_input_string self new_string in
                let self := emit self widget_change in
                update_events self events true
              else update_events self events updated
            else update_events (emit self play_event_error) events updated
        else update_events self events updated
  | KEYUP k :: events =>
      let self := set_block_copy_paste self false in
      let self := set_key_state self (_cursor_visible self) false (_last_key self) in
      update_events self events updated
  | OTHER :: events => update_events self events updated
  end.

(** [TextInput.update(events)].  What follows the loop in the source
    (clock, key repeat, cursor blinking, the held mouse button) reads the
    host's timers and mouse and is not part of the model. *)
Definition update (self : TextInput) (events : list event)
  : result (TextInput * option bool) :=
  update_events self events false.

(** [TextInput.__init__], for the arguments that reach the text state. *)
Definition __init__ (default : str) (input_type_ : input_type)
    (history maxchar maxwidth : Z) (text_ellipsis : str) : result TextInput :=
  if maxchar <? 0 then Raise ValueError
  else if maxwidth <? 0 then Raise ValueError
  else if history <? 0 then Raise ValueError
  else
    let self :=
      mkTextInput [] 
        [ MENU_CTRL_UP ctrl; MENU_CTRL_DOWN ctrl; K_LCTRL; K_RCTRL;
          K_LSHIFT; K_RSHIFT; K_NUMLOCK; K_CAPSLOCK; K_TAB; K_RETURN;
          K_ESCAPE ]
        false false None text_ellipsis (RB 0 0 0) 0 true false
        [] [] [] 0 history input_type_ maxchar maxwidth [] in
    if _check_input_type self default then
      let self := set_input_string self default in
      let self := Nat.iter (Z.to_nat (len default + 1)) _move_cursor_right self in
      _update_input_string self default
    else Raise ValueError.

End Conversions.

(** *** State predicates and sample inputs used by the properties *)

(** The three history lists run in parallel, hold at most [_max_history]
    editions, and the index points into them or just past the end. *)
Definition history_wf (t : TextInput) : Prop :=
  len (_history_cursor t) = len (_history t)
  /\ len (_history_renderbox t) = len (_history t)
  /\ len (_history t) <= _max_history t
  /\ 0 <= _history_index t <= len (_history t).

(** The cursor lies inside the text. *)
Definition cursor_inv (t : TextInput) : Prop :=
  0 <= _cursor_position t <= len (_input_string t).

(** The render window lies inside the text and is at most [_maxwidth]
    wide, and the inner position lies inside the window. *)
Definition renderbox_inv (t : TextInput) : Prop :=
  0 <= rb0 (_renderbox t) <= rb1 (_renderbox t)
  /\ rb1 (_renderbox t) - rb0 (_renderbox t) <= _maxwidth t
  /\ rb1 (_renderbox t) <= len (_input_string t)
  /\ 0 <= rb2 (_renderbox t) <= Z.min (_maxwidth t) (len (_input_string t)).

(** The widget with its history lists, index and text replaced. *)
Definition with_history (t : TextInput) (h : list str) (hc : list Z)
    (hr : list renderbox) (i : Z) (s : str) : TextInput :=
  set_input_string (set_history_index (set_history t h hc hr) i) s.

(** Successive calls of [_update_input_string]. *)
Fixpoint update_input_strings (self : TextInput) (news : list str)
  : result TextInput :=
  match news with
  | [] => Ok self
  | s :: news =>
      let! self := _update_input_string self s in
      update_input_strings self news
  end.

(** Successive calls of [update], one list of events per frame. *)
Fixpoint updates {F} (py_int : str -> option Z) (py_float : str -> option F)
    (ctrl : controls) (self : TextInput) (frames : list (list event))
  : result TextInput :=
  match frames with
  | [] => Ok self
  | events :: frames =>
      let! (self, _r) := update py_int py_float ctrl self events in
      updates py_int py_float ctrl self frames
  end.

(** The default key bindings, a key press the host accepts with and
    without the control key held, and the event of typing one character. *)
Definition default_controls : controls := Controls K_RETURN K_UP K_DOWN.
Definition plain : host := Host true false [].
Definition with_ctrl (clip : str) : host := Host true true clip.
Definition typed (c : ascii) : event := KEYDOWN (K_code (ord c)) [c] plain.
Definition pressed (k : key) : event := KEYDOWN k [] plain.

(** A widget showing the middle of a long text, and a widget of a given
    input type holding a given text. *)
Definition windowed : TextInput :=
  mkTextInput ["a"; "b"; "c"; "d"; "e"]%char [] false false None ["."; "."]%char
    (RB 1 4 0) 1 true false [] [] [] 0 50 PYGAME_INPUT_TEXT 0 3 [].

Definition holding (t : input_type) (s : str) : TextInput :=
  mkTextInput s [] false false None ["."; "."; "."]%char
    (RB 0 0 0) 0 true false [] [] [] 0 50 t 0 0 [].

(** A text widget limited to [maxchar] characters, holding [s] with the
    cursor at [cursor]. *)
Definition limited (maxchar : Z) (s : str) (cursor : Z) : TextInput :=
  mkTextInput s [] false false None ["."; "."; "."]%char
    (RB 0 0 0) cursor true false [] [] [] 0 50 PYGAME_INPUT_TEXT maxchar 0 [].

(** Sample converters: Python's [int] and [float] on plain decimal
    literals, an optional sign, digits and for [float] at most one point
    (no blanks, underscores, exponents, [inf] or [nan]). *)
Definition is_digit (c : ascii) : bool := (48 <=? ord c) && (ord c <=? 57).

Definition digits_value (s : str) : option Z :=
  if forallb is_digit s && negb (str_eqb s [])
  then Some (fold_left (fun acc c => 10 * acc + (ord c - 48)) s 0)
  else None.

Definition unsigned (s : str) : bool * str :=
  match s with
  | c :: t => if ord c =? 45 then (true, t)
              else if ord c =? 43 then (false, t) else (false, s)
  | [] => (false, s)
  end.

Definition decimal_int (s : str) : option Z :=
  let '(neg, body) := unsigned s in
  match digits_value body with
  | Some v => Some (if neg then - v else v)
  | None => None
  end.

Fixpoint split_point (s : str) : str * option str :=
  match s with
  | [] => ([], None)
  | c :: t =>
      if ord c =? 46 then ([], Some t)
      else let '(a, b) := split_point t in (c :: a, b)
  end.

Definition decimal_float (s : str) : option Q :=
  let '(neg, body) := unsigned s in
  let sign (q : Q) := if neg then Qopp q else q in
  match split_point body with
  | (whole, None) =>
      match digits_value whole with
      | Some v => Some (sign (inject_Z v))
      | None => None
      end
  | (whole, Some frac) =>
      if forallb is_digit whole && forallb is_digit frac
         && negb (str_eqb whole [] && str_eqb frac [])
      then
        let v := fold_left (fun acc c => 10 * acc + (ord c - 48)) (whole ++ frac) 0 in
        Some (sign (Qmake v (Z.to_pos (10 ^ len frac))))
      else None
  end.

End TextInput.

(** * Properties of the sound manager *)

Module SoundSpec.
Import Sound.






Section SetSoundFacts.

Variable isfile : string -> bool.
Variable mixer_Sound : string -> option mixer_sound.

Lemma type_sounds_init u : _type_sounds (__init__ u) = type_sounds.
Proof. reflexivity. Qed.

Lemma set_sound_keeps_types self sound file volume loops maxtime fade_ms :
  _type_sounds (fst (set_sound isfile mixer_Sound self sound file volume loops
                               maxtime fade_ms)) = _type_sounds self.
Proof.
  unfold set_sound.
  repeat (case_match; simpl; try reflexivity).
Qed.

(** C10, as amended.  When the arguments pass the assertions at the head
    of [set_sound] (loops, maxtime and fade_ms not negative, volume
    between 0 and 1): the call raises [ValueError] exactly when [sound]
    is not one of the eight sound types, and the object is then
    unchanged; with a valid type and [file=None] it returns after
    resetting that type's entry to the empty one, the other entries
    being untouched; with a valid type and a path that is not a file it
    raises [FileNotFoundError] and the object is unchanged. *)
Theorem set_sound_errors (self : Sound) (sound : string) (file : option string)
    (volume : Q) (loops : Z) (maxtime fade_ms : Q) :
  _type_sounds self = type_sounds ->
  set_sound_asserts volume loops maxtime fade_ms = true ->
  let r := set_sound isfile mixer_Sound self sound file volume loops maxtime fade_ms in
  (snd r = Py.Raise Py.ValueError <-> sound ∉ type_sounds)
  /\ (snd r = Py.Raise Py.ValueError -> fst r = self)
  /\ (sound ∈ type_sounds -> file = None ->
      snd r = Py.Ok tt
      /\ _sound (fst r) !! sound = Some None
      /\ forall other, other <> sound ->
           _sound (fst r) !! other = _sound self !! other)
  /\ (sound ∈ type_sounds -> forall path, file = Some path ->
      isfile path = false ->
      snd r = Py.Raise Py.FileNotFoundError /\ fst r = self).
Proof.
  intros Hty Hasserts r. subst r. unfold set_sound.
  rewrite Hasserts, Hty. simpl.
  destruct (bool_decide_reflect (sound ∈ type_sounds)) as [Hin|Hnin]; simpl.
  - split; [|split; [|split]].
    + split; [|tauto].
      destruct file as [p|]; simpl; [|discriminate].
      destruct (isfile p); simpl; [|discriminate].
      destruct (mixer_Sound p); simpl; discriminate.
    + destruct file as [p|]; simpl; [|discriminate].
      destruct (isfile p); simpl; [|discriminate].
      destruct (mixer_Sound p); simpl; discriminate.
    + intros _ ->. simpl. split; [reflexivity|]. split.
      * apply lookup_insert_eq.
      * intros other Hne. apply lookup_insert_ne. congruence.
    + intros _ path -> Hnf. simpl. rewrite Hnf. simpl. auto.
  - split; [|split; [|split]]; tauto.
Qed.

End SetSoundFacts.

Lemma set_sound_errors_witness :
  snd (set_sound no_file no_mixer_sound (__init__ true) SOUND_TYPE_ERROR
                 (Some "missing.ogg") (1 # 2) 0 0 0)
  = Py.Raise Py.FileNotFoundError
  /\ fst (set_sound no_file no_mixer_sound (__init__ true) SOUND_TYPE_ERROR
                    (Some "missing.ogg") (1 # 2) 0 0 0) = __init__ true.
Proof.
  destruct (set_sound_errors no_file no_mixer_sound (__init__ true)
              SOUND_TYPE_ERROR (Some "missing.ogg") (1 # 2) 0 0 0
              eq_refl eq_refl) as (_ & _ & _ & H).
  apply (H ltac:(repeat constructor) "missing.ogg" eq_refl eq_refl).
Defined.

(** C10 as stated fails: with a name that is not a sound type and a
    negative [loops], the assertion fires first and the call raises
    [AssertionError], not [ValueError]. *)
Lemma set_sound_assertion_first :
  ("bogus" ∉ type_sounds)
  /\ snd (set_sound no_file no_mixer_sound (__init__ true) "bogus" None
                    (1 # 2) (-1) 0 0) = Py.Raise Py.AssertionError
  /\ ~ (snd (set_sound no_file no_mixer_sound (__init__ true) "bogus" None
                       (1 # 2) (-1) 0 0) = Py.Raise Py.ValueError
        <-> "bogus" ∉ type_sounds).
Proof.
  assert (Hn : "bogus" ∉ type_sounds).
  { unfold type_sounds. rewrite !not_elem_of_cons. repeat split; try discriminate.
    apply not_elem_of_nil. }
  split; [exact Hn|]. split; [reflexivity|].
  intros [_ H]. specialize (H Hn). discriminate H.
Qed.

End SoundSpec.

(** * Properties of the text-input widget *)

Module TextInputSpec.
Import Py TextInput.
Local Open Scope char_scope.
Local Open Scope Z_scope.

(** Case analysis on the integer tests of the source. *)
Ltac ztest :=
  match goal with
  | |- context [Z.ltb ?a ?b] => destruct (Z.ltb_spec a b)
  | |- context [Z.leb ?a ?b] => destruct (Z.leb_spec a b)
  | |- context [Z.eqb ?a ?b] => destruct (Z.eqb_spec a b)
  end.

(** *** Lists and slices *)

Lemma len_nonneg {A} (l : list A) : 0 <= len l.
Proof. unfold len. lia. Qed.

Lemma len_app {A} (l k : list A) : len (l ++ k) = len l + len k.
Proof. unfold len. rewrite length_app. lia. Qed.

Lemma len_nil_iff {A} (l : list A) : len l = 0 <-> l = [].
Proof.
  unfold len. destruct l; simpl; split; intros H; try reflexivity; try discriminate; lia.
Qed.

Lemma clamp_bound_range n i : 0 <= n -> 0 <= clamp_bound n i <= n.
Proof. intros Hn. unfold clamp_bound. ztest; lia. Qed.

Lemma clamp_bound_id n i : 0 <= i <= n -> clamp_bound n i = i.
Proof. intros Hi. unfold clamp_bound. ztest; lia. Qed.

(** Inside the text a slice is the plain window, of length [hi - lo]. *)
Lemma slice_in_range {A} (s : list A) lo hi :
  0 <= lo <= hi -> hi <= len s ->
  slice s lo hi = firstn (Z.to_nat (hi - lo)) (skipn (Z.to_nat lo) s)
  /\ len (slice s lo hi) = hi - lo.
Proof.
  intros Hlo Hhi. unfold slice.
  rewrite !clamp_bound_id by lia. split; [reflexivity|].
  unfold len in *. rewrite length_firstn, length_skipn. lia.
Qed.

(** [s[0:c] + s[c:len(s)]] is [s], wherever [c] lies. *)
Lemma slice_split {A} (s : list A) c :
  slice s 0 c ++ slice s c (len s) = s.
Proof.
  unfold slice. pose proof (len_nonneg s) as Hn.
  pose proof (clamp_bound_range (len s) c Hn) as Hc.
  rewrite (clamp_bound_id (len s) 0) by lia.
  rewrite (clamp_bound_id (len s) (len s)) by lia.
  set (k := clamp_bound (len s) c) in *.
  rewrite Z.sub_0_r. simpl skipn.
  rewrite (firstn_all2 (skipn (Z.to_nat k) s)).
  - apply firstn_skipn.
  - rewrite length_skipn. unfold len in *. lia.
Qed.

Lemma getitem_in_range {A} (l : list A) i :
  0 <= i < len l -> exists x, getitem l i = Ok x.
Proof.
  intros Hi. unfold getitem.
  destruct (Z.ltb_spec i 0); [lia|].
  destruct (Z.ltb_spec i 0); [lia|].
  destruct (Z.leb_spec (len l) i); [lia|]. simpl.
  destruct (nth_error l (Z.to_nat i)) eqn:E; [eauto|].
  apply nth_error_None in E. unfold len in *. lia.
Qed.

Lemma len_insert_at {A} (l : list A) i x : len (insert_at l i x) = len l + 1.
Proof.
  unfold insert_at. pose proof (clamp_bound_range (len l) i (len_nonneg l)).
  unfold len in *. rewrite length_app. simpl.
  rewrite length_firstn, length_skipn. lia.
Qed.

Lemma len_pop0 {A} (l : list A) : 0 < len l -> len (pop0 l) = len l - 1.
Proof. destruct l; unfold len; simpl; lia. Qed.

(** *** The displayed text (C5) *)

(** C5.  [_get_input_string] returns the text itself when there is no
    width limit or the text fits; otherwise it returns the window
    [_input_string[_renderbox[0]:_renderbox[1]]], with the ellipsis
    appended exactly when the window does not end at the end of the text
    and prepended exactly when it does not start at 0. *)
Theorem get_input_string_window (self : TextInput) :
  (_maxwidth self = 0 \/ len (_input_string self) <= _maxwidth self ->
   _get_input_string self = _input_string self)
  /\ (_maxwidth self <> 0 -> _maxwidth self < len (_input_string self) ->
      _get_input_string self
      = (if bool_decide (rb0 (_renderbox self) <> 0) then _ellipsis self else [])
        ++ slice (_input_string self) (rb0 (_renderbox self)) (rb1 (_renderbox self))
        ++ (if bool_decide (rb1 (_renderbox self) <> len (_input_string self))
            then _ellipsis self else [])).
Proof.
  unfold _get_input_string. split.
  - intros [H|H].
    + rewrite H. reflexivity.
    + destruct (Z.ltb_spec (_maxwidth self) (len (_input_string self))); [lia|].
      now rewrite andb_false_r.
  - intros H0 Hlt.
    destruct (Z.eqb_spec (_maxwidth self) 0); [contradiction|].
    destruct (Z.ltb_spec (_maxwidth self) (len (_input_string self))); [|lia].
    simpl.
    destruct (Z.eqb_spec (rb1 (_renderbox self)) (len (_input_string self)));
      destruct (Z.eqb_spec (rb0 (_renderbox self)) 0); simpl;
      repeat case_bool_decide; try contradiction; try lia;
      rewrite ?app_nil_r; reflexivity.
Qed.

Lemma get_input_string_window_witness :
  _get_input_string (set_input_string windowed ["a"; "b"]) = ["a"; "b"]
  /\ _get_input_string windowed = ["."; "."; "b"; "c"; "d"; "."; "."].
Proof.
  split.
  - apply (proj1 (get_input_string_window (set_input_string windowed ["a"; "b"]))).
    right. vm_compute. discriminate.
  - apply (proj2 (get_input_string_window windowed)); vm_compute; [discriminate|reflexivity].
Defined.

(** *** Input types (C8) *)

Lemma str_eqb_eq (a b : str) : str_eqb a b = true <-> a = b.
Proof. unfold str_eqb. apply bool_decide_eq_true. Qed.

Lemma str_eqb_neq (a b : str) : a <> b -> str_eqb a b = false.
Proof. intros H. unfold str_eqb. now apply bool_decide_eq_false. Qed.

(** C8.  For a text other than the empty one and ["-"], a widget
    declared [PYGAME_INPUT_INT] accepts it exactly when [float] converts
    it, and one declared [PYGAME_INPUT_FLOAT] exactly when [int] converts
    it; the empty text and ["-"] pass for every input type; and
    [get_value] is 0 when the stored text fails the conversion of the
    declared numeric type. *)
Theorem check_input_type_converters {F : Type}
    (py_int : str -> option Z) (py_float : str -> option F)
    (self : TextInput) (string : str) :
  (string <> [] -> string <> ["-"] ->
     (_input_type self = PYGAME_INPUT_INT ->
        (_check_input_type py_int py_float self string = true
         <-> is_Some (py_float string)))
     /\ (_input_type self = PYGAME_INPUT_FLOAT ->
        (_check_input_type py_int py_float self string = true
         <-> is_Some (py_int string))))
  /\ _check_input_type py_int py_float self [] = true
  /\ _check_input_type py_int py_float self ["-"] = true
  /\ (_input_type self = PYGAME_INPUT_INT -> py_int (_input_string self) = None ->
      get_value py_int py_float self = VInt 0)
  /\ (_input_type self = PYGAME_INPUT_FLOAT -> py_float (_input_string self) = None ->
      get_value py_int py_float self = VInt 0).
Proof.
  repeat split.
  - intros Hc. revert Hc. unfold _check_input_type.
    rewrite (str_eqb_neq _ _ H), H1, (str_eqb_neq _ _ H0).
    apply bool_decide_eq_true.
  - intros Hs. unfold _check_input_type.
    rewrite (str_eqb_neq _ _ H), H1, (str_eqb_neq _ _ H0).
    now apply bool_decide_eq_true.
  - intros Hc. revert Hc. unfold _check_input_type.
    rewrite (str_eqb_neq _ _ H), H1, (str_eqb_neq _ _ H0).
    apply bool_decide_eq_true.
  - intros Hs. unfold _check_input_type.
    rewrite (str_eqb_neq _ _ H), H1, (str_eqb_neq _ _ H0).
    now apply bool_decide_eq_true.
  - unfold _check_input_type. destruct (_input_type self); reflexivity.
  - intros Hi Hn. unfold get_value. now rewrite Hi, Hn.
  - intros Hi Hn. unfold get_value. now rewrite Hi, Hn.
Qed.

Lemma check_input_type_converters_witness :
  _check_input_type decimal_int decimal_float (holding PYGAME_INPUT_INT [])
                    ["3"; "."; "5"] = true
  /\ _check_input_type decimal_int decimal_float (holding PYGAME_INPUT_FLOAT [])
                       ["3"; "."; "5"] <> true
  /\ get_value decimal_int decimal_float
               (holding PYGAME_INPUT_INT ["3"; "."; "5"]) = VInt 0.
Proof.
  split; [|split].
  - destruct (check_input_type_converters decimal_int decimal_float
                (holding PYGAME_INPUT_INT []) ["3"; "."; "5"]) as (H & _).
    destruct H as [H _]; [discriminate | discriminate |].
    apply (H eq_refl). vm_compute. eauto.
  - destruct (check_input_type_converters decimal_int decimal_float
                (holding PYGAME_INPUT_FLOAT []) ["3"; "."; "5"]) as (H & _).
    destruct H as [_ H]; [discriminate | discriminate |].
    intros Hc. apply (H eq_refl) in Hc. vm_compute in Hc.
    destruct Hc as [z Hz]. discriminate Hz.
  - destruct (check_input_type_converters decimal_int decimal_float
                (holding PYGAME_INPUT_INT ["3"; "."; "5"]) []) as (_ & _ & _ & H & _).
    apply H; reflexivity.
Defined.

(** *** The edit history (C3, C2) *)

Lemma getitem_nth {A} (l : list A) i x :
  0 <= i -> getitem l i = Ok x -> nth_error l (Z.to_nat i) = Some x.
Proof.
  intros Hi. unfold getitem.
  destruct (Z.ltb_spec i 0); [lia|].
  destruct (Z.ltb_spec i 0); [lia|].
  destruct (Z.leb_spec (len l) i); simpl; [discriminate|].
  destruct (nth_error l (Z.to_nat i)); [|discriminate].
  now intros [= ->].
Qed.

Lemma getitem_last {A} (l : list A) :
  0 < len l -> exists x, getitem l (len l - 1) = Ok x /\ last l = Some x.
Proof.
  intros Hl. destruct (getitem_in_range l (len l - 1)) as [x Hx]; [lia|].
  exists x. split; [exact Hx|].
  apply getitem_nth in Hx; [|lia].
  rewrite last_lookup.
  replace (pred (length l)) with (Z.to_nat (len l - 1)) by (unfold len; lia).
  revert Hx. generalize (Z.to_nat (len l - 1)). clear.
  induction l as [|a l IH]; intros [|k]; simpl; intros E; try discriminate E; auto.
Qed.

(** Storing an edition replaces the history lists, which stay in step
    and within the limit, and moves the index to the end. *)
Lemma store_edition_shape (self : TextInput) (s : str) :
  len (_history_cursor self) = len (_history self) ->
  len (_history_renderbox self) = len (_history self) ->
  len (_history self) <= _max_history self ->
  exists h hc hr,
    store_edition self s
    = set_history_index (set_history self h hc hr) (len h)
    /\ len hc = len h /\ len hr = len h /\ len h <= _max_history self.
Proof.
  intros Hc Hr Hmax. unfold store_edition. cbn.
  pose proof (len_insert_at (_history self) (_history_index self) s) as E1.
  pose proof (len_insert_at (_history_cursor self) (_history_index self)
                (_cursor_position self)) as E2.
  pose proof (len_insert_at (_history_renderbox self) (_history_index self)
                (RB (rb0 (_renderbox self)) (rb1 (_renderbox self))
                    (rb2 (_renderbox self)))) as E3.
  pose proof (len_nonneg (_history self)) as Hn.
  ztest.
  - eexists _, _, _. split; [reflexivity|]. cbn [_history set_history].
    rewrite !len_pop0 by lia. lia.
  - eexists _, _, _. split; [reflexivity|]. cbn [_history set_history]. lia.
Qed.

(** A call made with the index at the end of the history does not call
    itself: it stores the edition (dropping the oldest one when the
    history is full) or leaves the history alone. *)
Lemma update_input_string_at_end n (self : TextInput) (s : str) :
  history_wf self -> _history_index self = len (_history self) ->
  exists h hc hr,
    _update_input_string_fuel (S n) self s = Ok (with_history self h hc hr (len h) s)
    /\ len hc = len h /\ len hr = len h /\ len h <= _max_history self
    /\ (_max_history self = 0 \/ last (_history self) = Some s ->
        h = _history self /\ hc = _history_cursor self
        /\ hr = _history_renderbox self).
Proof.
  intros (Hc & Hr & Hmax & Hidx) Hend.
  assert (Hkeep : exists h hc hr,
    Ok (set_input_string self s) = Ok (with_history self h hc hr (len h) s)
    /\ len hc = len h /\ len hr = len h /\ len h <= _max_history self
    /\ (_max_history self = 0 \/ last (_history self) = Some s ->
        h = _history self /\ hc = _history_cursor self
        /\ hr = _history_renderbox self)).
  { exists (_history self), (_history_cursor self), (_history_renderbox self).
    split; [|tauto]. unfold with_history, set_input_string. cbn.
    rewrite <- Hend. reflexivity. }
  assert (Hstore : ~ (_max_history self = 0 \/ last (_history self) = Some s) ->
    exists h hc hr,
    Ok (set_input_string (store_edition self s) s)
      = Ok (with_history self h hc hr (len h) s)
    /\ len hc = len h /\ len hr = len h /\ len h <= _max_history self
    /\ (_max_history self = 0 \/ last (_history self) = Some s ->
        h = _history self /\ hc = _history_cursor self
        /\ hr = _history_renderbox self)).
  { intros Hno.
    destruct (store_edition_shape self s Hc Hr Hmax) as (h & hc & hr & E & H1 & H2 & H3).
    exists h, hc, hr. rewrite E. split; [reflexivity|]. tauto. }
  cbn [_update_input_string_fuel].
  destruct (Z.eqb_spec (_history_index self) (len (_history self))) as [_|?]; [|contradiction].
  cbn [negb].
  destruct (Z.ltb_spec 0 (len (_history self))) as [Hpos|Hzero].
  - destruct (getitem_last (_history self) Hpos) as (x & Hx & Hlast).
    rewrite Hx. cbn [bind].
    destruct (Z.eqb_spec (len (_history self)) 0); [lia|].
    rewrite orb_false_r.
    destruct (bool_decide_reflect (x = s)) as [->|Hne].
    + unfold str_eqb. rewrite bool_decide_eq_true_2 by reflexivity. exact Hkeep.
    + unfold str_eqb. rewrite bool_decide_eq_false_2 by exact Hne. cbn [negb andb].
      destruct (Z.ltb_spec 0 (_max_history self)); [|exact Hkeep].
      cbn [bind]. apply Hstore. intros [H0|H0]; [lia|congruence].
  - cbn [bind]. assert (Hl : len (_history self) = 0) by lia.
    rewrite Hl. cbn [Z.eqb orb andb].
    destruct (Z.ltb_spec 0 (_max_history self)); [|exact Hkeep].
    cbn [bind]. apply Hstore. apply len_nil_iff in Hl. rewrite Hl.
    intros [H0|H0]; [lia|discriminate].
Qed.


(** Two levels of fuel are enough whatever the index: the method calls
    itself at most once.  The history lists stay in step and within the
    limit, and nothing is stored when the history is switched off or the
    new text is the last stored edition. *)
Lemma update_input_string_fuel n (self : TextInput) (s : str) :
  history_wf self ->
  exists h hc hr i,
    _update_input_string_fuel (S (S n)) self s = Ok (with_history self h hc hr i s)
    /\ len hc = len h /\ len hr = len h /\ len h <= _max_history self
    /\ 0 <= i <= len h
    /\ (_max_history self = 0 \/ last (_history self) = Some s ->
        h = _history self /\ hc = _history_cursor self
        /\ hr = _history_renderbox self /\ i = _history_index self).
Proof.
  intros Hwf.
  destruct (Z.eq_dec (_history_index self) (len (_history self))) as [Hend|Hmid].
  { destruct (update_input_string_at_end (S n) self s Hwf Hend)
      as (h & hc & hr & E & H1 & H2 & H3 & H4).
    exists h, hc, hr, (len h). split; [exact E|].
    pose proof (len_nonneg h).
    repeat split; try lia; try (apply H4; assumption).
    destruct (H4 H0) as (-> & _). symmetry. exact Hend. }
  destruct Hwf as (Hc & Hr & Hmax & Hidx).
  assert (Hpos : 0 < len (_history self)) by lia.
  assert (Hkeep : exists h hc hr i,
    Ok (set_input_string self s) = Ok (with_history self h hc hr i s)
    /\ len hc = len h /\ len hr = len h /\ len h <= _max_history self
    /\ 0 <= i <= len h
    /\ (_max_history self = 0 \/ last (_history self) = Some s ->
        h = _history self /\ hc = _history_cursor self
        /\ hr = _history_renderbox self /\ i = _history_index self)).
  { exists (_history self), (_history_cursor self), (_history_renderbox self),
      (_history_index self).
    split; [reflexivity|]. tauto. }
  remember (S n) as m eqn:Hm. cbn [_update_input_string_fuel]. subst m.
  destruct (Z.ltb_spec 0 (len (_history self))) as [_|?]; [|lia].
  destruct (getitem_last (_history self) Hpos) as (x & Hx & Hlast).
  rewrite Hx. cbn [bind].
  destruct (Z.eqb_spec (len (_history self)) 0); [lia|].
  rewrite orb_false_r.
  destruct (bool_decide_reflect (x = s)) as [->|Hne].
  { unfold str_eqb. rewrite bool_decide_eq_true_2 by reflexivity. exact Hkeep. }
  unfold str_eqb at 1. rewrite bool_decide_eq_false_2 by exact Hne. cbn [negb andb].
  destruct (Z.ltb_spec 0 (_max_history self)); [|exact Hkeep].
  destruct (Z.eqb_spec (_history_index self) (len (_history self))); [contradiction|].
  cbn [negb].
  destruct (getitem_in_range (_history self) (_history_index self)) as [y Hy]; [lia|].
  rewrite Hy. cbn [bind].
  destruct (update_input_string_at_end n
              (set_history_index self (len (_history self))) y)
    as (h1 & hc1 & hr1 & E1 & L1 & L2 & L3 & _).
  { repeat split; cbn; lia. }
  { reflexivity. }
  rewrite E1. cbn [bind].
  destruct (store_edition_shape
              (with_history (set_history_index self (len (_history self)))
                 h1 hc1 hr1 (len h1) y) s)
    as (h & hc & hr & E & H1 & H2 & H3); try (cbn; assumption).
  exists h, hc, hr, (len h). rewrite E. split; [reflexivity|].
  pose proof (len_nonneg h). cbn in H3.
  repeat split; try lia; exfalso; destruct H4 as [H4|H4]; try lia; congruence.
Qed.

Lemma update_input_string_ok (self : TextInput) (s : str) :
  history_wf self ->
  exists h hc hr i,
    _update_input_string self s = Ok (with_history self h hc hr i s)
    /\ history_wf (with_history self h hc hr i s)
    /\ (_max_history self = 0 \/ last (_history self) = Some s ->
        h = _history self /\ hc = _history_cursor self
        /\ hr = _history_renderbox self /\ i = _history_index self).
Proof.
  intros Hwf.
  destruct (update_input_string_fuel 0 self s Hwf)
    as (h & hc & hr & i & E & H1 & H2 & H3 & H4 & H5).
  exists h, hc, hr, i. split; [exact E|]. split; [|exact H5].
  repeat split; cbn; lia.
Qed.



(** [_update_renderbox] touches the render box and the render flag only. *)
Lemma update_renderbox_shape (self : TextInput) left right addition end_ start :
  exists b,
    _update_renderbox self left right addition end_ start
    = set_renderbox (set_cursor_render self true) b.
Proof.
  destruct self. unfold _update_renderbox.
  cbn [set_cursor_render _maxwidth _input_string _renderbox _ignore_keys
       _block_copy_paste _key_is_pressed _last_key _ellipsis _cursor_position
       _cursor_render _cursor_visible _history _history_cursor
       _history_renderbox _history_index _max_history _input_type _maxchar
       effects].
  repeat match goal with
         | |- exists b, (if ?c then _ else _) = _ => destruct c
         end;
    eexists; reflexivity.
Qed.

Lemma move_cursor_right_shape (self : TextInput) :
  exists b c,
    _move_cursor_right self
    = set_renderbox (set_cursor_render (set_cursor_position self c) true) b.
Proof.
  unfold _move_cursor_right.
  destruct (update_renderbox_shape
              (set_cursor_position self
                 (Z.min (_cursor_position self + 1) (len (_input_string self))))
              0 1 false false false) as [b E].
  rewrite E. eauto.
Qed.

Lemma move_cursor_left_shape (self : TextInput) :
  exists b c,
    _move_cursor_left self
    = set_renderbox (set_cursor_render (set_cursor_position self c) true) b.
Proof.
  unfold _move_cursor_left.
  destruct (update_renderbox_shape
              (set_cursor_position self (Z.max (_cursor_position self - 1) 0))
              (-1) 0 false false false) as [b E].
  rewrite E. eauto.
Qed.

(** Moving the cursor any number of times leaves the history and the
    text alone. *)
Lemma iter_move_cursor_right_frame k (self : TextInput) :
  _history (Nat.iter k _move_cursor_right self) = _history self
  /\ _history_cursor (Nat.iter k _move_cursor_right self) = _history_cursor self
  /\ _history_renderbox (Nat.iter k _move_cursor_right self)
     = _history_renderbox self
  /\ _history_index (Nat.iter k _move_cursor_right self) = _history_index self
  /\ _max_history (Nat.iter k _move_cursor_right self) = _max_history self
  /\ _input_string (Nat.iter k _move_cursor_right self) = _input_string self.
Proof.
  induction k as [|k IH]; [cbn; tauto|].
  rewrite !Nat.iter_succ.
  destruct (move_cursor_right_shape (Nat.iter k _move_cursor_right self)) as (b & c & E).
  rewrite E. cbn. exact IH.
Qed.

(** A widget comes out of the constructor with a well-formed history
    holding at most [history] editions. *)
Lemma init_history_wf {F} (py_int : str -> option Z) (py_float : str -> option F)
    ctrl default ty history maxchar maxwidth ell (self : TextInput) :
  __init__ py_int py_float ctrl default ty history maxchar maxwidth ell = Ok self ->
  history_wf self /\ _max_history self = history /\ 0 <= history.
Proof.
  unfold __init__.
  destruct (Z.ltb_spec maxchar 0); [discriminate|].
  destruct (Z.ltb_spec maxwidth 0); [discriminate|].
  destruct (Z.ltb_spec history 0); [discriminate|].
  destruct (_check_input_type _ _ _ _); [|discriminate].
  match goal with
  | |- _update_input_string (Nat.iter ?k _ ?t) _ = _ -> _ =>
      pose proof (iter_move_cursor_right_frame k t) as Hf;
      set (t1 := Nat.iter k _move_cursor_right t) in *
  end.
  cbn in Hf. destruct Hf as (F1 & F2 & F3 & F4 & F5 & F6).
  assert (Hwf : history_wf t1).
  { unfold history_wf. rewrite F1, F2, F3, F4, F5. unfold len. simpl. lia. }
  destruct (update_input_string_ok t1 default Hwf) as (h & hc & hr & i & E & Hwf' & _).
  rewrite E. intros [= <-]. split; [exact Hwf'|]. cbn. split; [exact F5|lia].
Qed.

(** C3.  After the constructor, called with [history = h], and any
    sequence of calls of [_update_input_string]: the call sequence
    returns; the three history lists have the same length, which is at
    most [h]; the index lies between 0 and that length; and one more
    call, made when [h = 0] or with the last stored edition as new text,
    leaves the three lists as they are. *)
Theorem history_lists_in_step {F} (py_int : str -> option Z)
    (py_float : str -> option F) (ctrl : controls) (default : str)
    (ty : input_type) (h maxchar maxwidth : Z) (ell : str)
    (self : TextInput) (news : list str) :
  __init__ py_int py_float ctrl default ty h maxchar maxwidth ell = Ok self ->
  exists self',
    update_input_strings self news = Ok self'
    /\ len (_history_cursor self') = len (_history self')
    /\ len (_history_renderbox self') = len (_history self')
    /\ len (_history self') <= h
    /\ 0 <= _history_index self' <= len (_history self')
    /\ forall new_string,
         h = 0 \/ last (_history self') = Some new_string ->
         exists self'',
           _update_input_string self' new_string = Ok self''
           /\ _history self'' = _history self'
           /\ _history_cursor self'' = _history_cursor self'
           /\ _history_renderbox self'' = _history_renderbox self'.
Proof.
  intros Hinit.
  destruct (init_history_wf _ _ _ _ _ _ _ _ _ _ Hinit) as (Hwf & Hmax & _).
  clear Hinit. revert self Hwf Hmax.
  induction news as [|s news IH]; intros self Hwf Hmax.
  - exists self. split; [reflexivity|].
    destruct Hwf as (H1 & H2 & H3 & H4).
    repeat split; try lia.
    intros new_string Hcase.
    destruct (update_input_string_ok self new_string) as (h' & hc & hr & i & E & _ & Hsame).
    { repeat split; lia. }
    rewrite <- Hmax in Hcase.
    destruct (Hsame Hcase) as (-> & -> & -> & ->).
    eexists. split; [exact E|]. cbn. auto.
  - destruct (update_input_string_ok self s Hwf) as (h' & hc & hr & i & E & Hwf' & _).
    cbn [update_input_strings]. rewrite E. cbn [bind].
    apply IH; [exact Hwf'|]. cbn. exact Hmax.
Qed.

Lemma history_lists_in_step_witness :
  exists self',
    update_input_strings
      (mkTextInput ["h"; "i"] [K_UP; K_DOWN; K_LCTRL; K_RCTRL; K_LSHIFT;
                               K_RSHIFT; K_NUMLOCK; K_CAPSLOCK; K_TAB;
                               K_RETURN; K_ESCAPE]
         false false None ["."] (RB 0 0 0) 2 true false [["h"; "i"]] [2]
         [RB 0 0 0] 1 1 PYGAME_INPUT_TEXT 0 0 [])
      [["a"]; ["a"]; ["b"]] = Ok self'
    /\ len (_history self') <= 1.
Proof.
  assert (Hinit :
    __init__ decimal_int decimal_float default_controls ["h"; "i"]
             PYGAME_INPUT_TEXT 1 0 0 ["."]
    = Ok (mkTextInput ["h"; "i"] [K_UP; K_DOWN; K_LCTRL; K_RCTRL; K_LSHIFT;
                                  K_RSHIFT; K_NUMLOCK; K_CAPSLOCK; K_TAB;
                                  K_RETURN; K_ESCAPE]
            false false None ["."] (RB 0 0 0) 2 true false [["h"; "i"]] [2]
            [RB 0 0 0] 1 1 PYGAME_INPUT_TEXT 0 0 []))
    by (vm_compute; reflexivity).
  destruct (history_lists_in_step decimal_int decimal_float default_controls
              ["h"; "i"] PYGAME_INPUT_TEXT 1 0 0 ["."] _ [["a"]; ["a"]; ["b"]]
              Hinit) as (self' & E & _ & _ & H & _).
  exists self'. split; [exact E | exact H].
Defined.


(** *** Undo and redo (C2) *)





(** C2, where the code departs from it.  A widget built with
    [history=0] keeps an empty history: [_undo] returns [False], but
    [_redo], and so [update] on Ctrl+Y, sets the index to -1, reads
    [self._history[-1]] and raises [IndexError]. *)
Theorem redo_without_history_raises :
  exists self,
    __init__ decimal_int decimal_float default_controls [] PYGAME_INPUT_TEXT
             0 0 0 ["."; "."; "."] = Ok self
    /\ _history self = [] /\ _history_index self = 0
    /\ _undo self = Ok (self, false)
    /\ _redo self = Raise IndexError
    /\ update decimal_int decimal_float default_controls self
              [KEYDOWN K_y [] (with_ctrl [])] = Raise IndexError.
Proof. eexists. repeat split. Qed.


(** *** Backspace and delete (C6) *)

Lemma emit_if (self : TextInput) (c : bool) (a b : effect) :
  (if c then emit self a else emit self b) = emit self (if c then a else b).
Proof. now destruct c. Qed.

Section Keys.

Context {F : Type}.
Variable py_int : str -> option Z.
Variable py_float : str -> option F.
Variable ctrl : controls.

(** C6, as amended.  For a key press that [check_key_pressed_valid]
    accepts, made with no control key held, on a widget with text [s]
    and cursor [p] (and a well-formed history): [K_BACKSPACE] leaves
    [s[:max(p-1,0)] + s[p:]] and the cursor at [max(p-1, 0)], after the
    error sound when [p = 0] and the deletion sound otherwise;
    [K_DELETE] leaves [s[:p] + s[p+1:]] and the cursor at [p], after the
    error sound when [p = len(s)] and the deletion sound otherwise; in
    both cases [update], called with that event alone, returns [True]. *)
Theorem backspace_delete_events (self : TextInput) (u : str) (h : host) :
  history_wf self ->
  key_pressed_valid h = true -> mods_ctrl h = false ->
  (exists self',
     update py_int py_float ctrl self [KEYDOWN K_BACKSPACE u h] = Ok (self', Some true)
     /\ _input_string self'
        = slice_to (_input_string self) (Z.max (_cursor_position self - 1) 0)
          ++ slice_from (_input_string self) (_cursor_position self)
     /\ _cursor_position self' = Z.max (_cursor_position self - 1) 0
     /\ effects self'
        = effects self
          ++ [if _cursor_position self =? 0 then play_event_error else play_key_del;
              widget_change])
  /\ (exists self',
     update py_int py_float ctrl self [KEYDOWN K_DELETE u h] = Ok (self', Some true)
     /\ _input_string self'
        = slice_to (_input_string self) (_cursor_position self)
          ++ slice_from (_input_string self) (_cursor_position self + 1)
     /\ _cursor_position self' = _cursor_position self
     /\ effects self'
        = effects self
          ++ [if _cursor_position self =? len (_input_string self)
              then play_event_error else play_key_del;
              widget_change]).
Proof.
  intros Hwf Hvalid Hctrl. split.
  - unfold update. cbn [update_events]. rewrite Hvalid, Hctrl. cbn [negb].
    rewrite bool_decide_eq_true_2 by reflexivity.
    rewrite emit_if.
    cbn [_cursor_position _input_string set_key_state emit].
    match goal with
    | |- context [_update_input_string ?t ?s] =>
        destruct (update_input_string_ok t s) as (hs & hc & hr & i & E & _)
    end.
    { destruct Hwf as (H1 & H2 & H3 & H4). repeat split; cbn; lia. }
    rewrite E. cbn [bind].
    match goal with
    | |- context [_update_renderbox ?t ?l ?r ?a ?e ?st] =>
        destruct (update_renderbox_shape t l r a e st) as [b Eb]
    end.
    rewrite Eb. eexists. split; [reflexivity|]. cbn.
    repeat split. now rewrite <- app_assoc.
  - unfold update. cbn [update_events]. rewrite Hvalid, Hctrl. cbn [negb].
    rewrite bool_decide_eq_false_2 by discriminate.
    rewrite bool_decide_eq_true_2 by reflexivity.
    rewrite emit_if.
    cbn [_cursor_position _input_string set_key_state emit].
    match goal with
    | |- context [_update_input_string ?t ?s] =>
        destruct (update_input_string_ok t s) as (hs & hc & hr & i & E & _)
    end.
    { destruct Hwf as (H1 & H2 & H3 & H4). repeat split; cbn; lia. }
    rewrite E. cbn [bind].
    match goal with
    | |- context [_update_renderbox ?t ?l ?r ?a ?e ?st] =>
        destruct (update_renderbox_shape t l r a e st) as [b Eb]
    end.
    rewrite Eb. eexists. split; [reflexivity|]. cbn.
    repeat split. now rewrite <- app_assoc.
Qed.

End Keys.

Lemma backspace_delete_events_witness :
  exists self',
    update decimal_int decimal_float default_controls
           (set_cursor_position (holding PYGAME_INPUT_TEXT ["a"; "b"; "c"]) 2)
           [KEYDOWN K_BACKSPACE [] plain] = Ok (self', Some true)
    /\ _input_string self' = ["a"; "c"] /\ _cursor_position self' = 1.
Proof.
  assert (Hwf : history_wf
            (set_cursor_position (holding PYGAME_INPUT_TEXT ["a"; "b"; "c"]) 2))
    by (repeat split; vm_compute; congruence).
  destruct (backspace_delete_events decimal_int decimal_float default_controls
              (set_cursor_position (holding PYGAME_INPUT_TEXT ["a"; "b"; "c"]) 2)
              [] plain Hwf eq_refl eq_refl)
    as [(self' & E & Hs & Hp & _) _].
  exists self'. split; [exact E|]. split; [exact Hs | exact Hp].
Defined.

(** C6 as stated fails: with the control key held, [K_BACKSPACE] is
    looked up among the Ctrl commands, is none of them, and [update]
    returns [False] with text and cursor as they were. *)
Lemma ctrl_backspace_ignored :
  exists self',
    update decimal_int decimal_float default_controls
           (set_cursor_position (holding PYGAME_INPUT_TEXT ["a"; "b"; "c"]) 2)
           [KEYDOWN K_BACKSPACE [] (with_ctrl [])] = Ok (self', Some false)
    /\ _input_string self' = ["a"; "b"; "c"]
    /\ _input_string self' <> ["a"; "c"]
    /\ _cursor_position self' = 2.
Proof. eexists. repeat split. discriminate. Qed.


(** *** The render window and the cursor under editing (C1, C7) *)

(** C1, where the code departs from it.  A widget with [maxwidth=2]
    receives the keys a, b, c, d, Left, Left: text "abcd", cursor 2,
    window [2, 4, 0], and the render-window invariant holds.  Backspace
    then removes "b"; [_update_renderbox(left=-1, addition=True)] sees
    the inner position at 0 and returns before it applies any limit, so
    the window stays [2, 4, 0] over the three characters "acd": its right
    end lies past the text, and the widget displays "...d...". *)
Theorem backspace_at_window_start_breaks_renderbox :
  exists before after,
    (let! self := __init__ decimal_int decimal_float default_controls []
                    PYGAME_INPUT_TEXT 50 0 2 ["."; "."; "."] in
     updates decimal_int decimal_float default_controls self
       [[typed "a"; typed "b"; typed "c"; typed "d"];
        [pressed K_LEFT]; [pressed K_LEFT]]) = Ok before
    /\ _input_string before = ["a"; "b"; "c"; "d"]
    /\ _cursor_position before = 2
    /\ _renderbox before = RB 2 4 0
    /\ renderbox_inv before
    /\ update decimal_int decimal_float default_controls before
         [pressed K_BACKSPACE] = Ok (after, Some true)
    /\ _input_string after = ["a"; "c"; "d"]
    /\ _renderbox after = RB 2 4 0
    /\ ~ renderbox_inv after
    /\ _get_input_string after = ["."; "."; "."; "d"; "."; "."; "."].
Proof.
  eexists. eexists.
  split; [vm_compute; reflexivity|].
  split; [reflexivity|]. split; [reflexivity|]. split; [reflexivity|].
  split; [unfold renderbox_inv; vm_compute; intuition discriminate|].
  split; [vm_compute; reflexivity|].
  split; [reflexivity|]. split; [reflexivity|].
  split; [|reflexivity].
  unfold renderbox_inv. cbn. unfold len. cbn. lia.
Qed.

(** C7, where the code departs from it.  On a fresh widget the keys a
    and Backspace leave the empty text with the cursor at 0, but the
    edition stored by Backspace carries the cursor as it was before the
    key moved it (1).  Ctrl+Z goes back to "a"; Ctrl+Y then restores the
    empty text together with that stored cursor, which lies past the end
    of the text. *)
Theorem redo_restores_cursor_past_end :
  exists edited undone redone,
    (let! self := __init__ decimal_int decimal_float default_controls []
                    PYGAME_INPUT_TEXT 50 0 0 ["."; "."; "."] in
     updates decimal_int decimal_float default_controls self
       [[typed "a"]; [pressed K_BACKSPACE]]) = Ok edited
    /\ _input_string edited = [] /\ cursor_inv edited
    /\ _history edited = [[]; ["a"]; []] /\ _history_cursor edited = [0; 1; 1]
    /\ update decimal_int decimal_float default_controls edited
         [KEYDOWN K_z [] (with_ctrl [])] = Ok (undone, Some true)
    /\ _input_string undone = ["a"] /\ cursor_inv undone
    /\ update decimal_int decimal_float default_controls undone
         [KEYDOWN K_y [] (with_ctrl [])] = Ok (redone, Some true)
    /\ _input_string redone = [] /\ _cursor_position redone = 1
    /\ ~ cursor_inv redone.
Proof.
  eexists. eexists. eexists.
  split; [vm_compute; reflexivity|].
  split; [reflexivity|].
  split; [unfold cursor_inv; vm_compute; intuition discriminate|].
  split; [reflexivity|]. split; [reflexivity|].
  split; [vm_compute; reflexivity|].
  split; [reflexivity|].
  split; [unfold cursor_inv; vm_compute; intuition discriminate|].
  split; [vm_compute; reflexivity|].
  split; [reflexivity|]. split; [reflexivity|].
  unfold cursor_inv. cbn. unfold len. cbn. lia.
Qed.


(** *** Pasting (C4) *)

Lemma escapes_length : length escapes = 31%nat.
Proof. reflexivity. Qed.

(** The table of [_paste] has 31 entries, so [translate] leaves every
    character from code 31 on as it is. *)
Lemma translate_escapes_id (s : str) :
  Forall (fun c => 31 <= ord c) s -> translate escapes s = s.
Proof.
  induction 1 as [|c s Hc _ IH]; [reflexivity|].
  cbn [translate map]. fold (translate escapes s). rewrite IH.
  destruct (nth_error escapes (Z.to_nat (ord c))) eqn:E; [|reflexivity].
  assert (Hlt : (Z.to_nat (ord c) < length escapes)%nat).
  { apply nth_error_Some. congruence. }
  rewrite escapes_length in Hlt. lia.
Qed.

Lemma slice_all {A} (s : list A) : slice s 0 (len s) = s.
Proof.
  unfold slice. pose proof (len_nonneg s).
  rewrite !clamp_bound_id by lia. rewrite Z.sub_0_r. cbn [Z.to_nat skipn].
  apply firstn_all2. unfold len. lia.
Qed.

Lemma len_slice_split {A} (s : list A) c :
  len (slice s 0 c) + len (slice s c (len s)) = len s.
Proof. rewrite <- len_app, slice_split. reflexivity. Qed.

Lemma iter_move_cursor_right_block k (self : TextInput) :
  _maxchar (Nat.iter k _move_cursor_right self) = _maxchar self
  /\ effects (Nat.iter k _move_cursor_right self) = effects self.
Proof.
  induction k as [|k IH]; [cbn; tauto|].
  rewrite !Nat.iter_succ.
  destruct (move_cursor_right_shape (Nat.iter k _move_cursor_right self)) as (b & c & E).
  rewrite E. cbn. exact IH.
Qed.

Section Paste.

Context {F : Type}.
Variable py_int : str -> option Z.
Variable py_float : str -> option F.

(** C4, as amended.  Let [text] be the clipboard text stripped of
    surrounding white space and of its line feeds and carriage returns,
    and suppose it holds no control character below code 31.  On a
    widget with [maxchar > 0] (and a well-formed history), [_paste]
    returns [False] and leaves the text alone when pasting is blocked,
    when [text] is empty, or when the text is already longer than
    [maxchar].  When pasting is not blocked and the non-empty [text]
    fits, [len(text) <= maxchar - len(_input_string)], the candidate is
    the text with all of [text] inserted at the cursor: if it passes
    [_check_input_type] it becomes the text, of at most [maxchar]
    characters, and [_paste] returns [True]; if not, [_paste] returns
    [False] and the text is unchanged. *)
Theorem paste_within_maxchar (self : TextInput) (pasted : str) :
  0 < _maxchar self -> history_wf self ->
  Forall (fun c => 31 <= ord c) (remove_char 13 (remove_char 10 (strip pasted))) ->
  (_block_copy_paste self = true
   \/ remove_char 13 (remove_char 10 (strip pasted)) = []
   \/ _maxchar self < len (_input_string self) ->
   exists self',
     _paste py_int py_float self pasted = Ok (self', false)
     /\ _input_string self' = _input_string self)
  /\ (_block_copy_paste self = false ->
      remove_char 13 (remove_char 10 (strip pasted)) <> [] ->
      len (remove_char 13 (remove_char 10 (strip pasted)))
        <= _maxchar self - len (_input_string self) ->
      exists self',
        _paste py_int py_float self pasted
        = Ok (self',
              _check_input_type py_int py_float self
                (slice (_input_string self) 0 (_cursor_position self)
                 ++ remove_char 13 (remove_char 10 (strip pasted))
                 ++ slice (_input_string self) (_cursor_position self)
                          (len (_input_string self))))
        /\ _input_string self'
           = (if _check_input_type py_int py_float self
                   (slice (_input_string self) 0 (_cursor_position self)
                    ++ remove_char 13 (remove_char 10 (strip pasted))
                    ++ slice (_input_string self) (_cursor_position self)
                             (len (_input_string self)))
              then slice (_input_string self) 0 (_cursor_position self)
                   ++ remove_char 13 (remove_char 10 (strip pasted))
                   ++ slice (_input_string self) (_cursor_position self)
                            (len (_input_string self))
              else _input_string self)
        /\ len (_input_string self') <= _maxchar self).
Proof.
  intros Hmax Hwf Hctl.
  set (text := remove_char 13 (remove_char 10 (strip pasted))) in *.
  assert (Ept : paste_text pasted = text).
  { unfold paste_text. fold text. apply translate_escapes_id. exact Hctl. }
  split.
  - intros Hcase. unfold _paste. rewrite Ept.
    destruct (_block_copy_paste self); [eauto|].
    destruct (bool_decide_reflect (text = [])) as [Ht|Ht].
    { unfold str_eqb. rewrite bool_decide_eq_true_2 by exact Ht. eauto. }
    unfold str_eqb at 1. rewrite bool_decide_eq_false_2 by exact Ht.
    destruct Hcase as [Hb|[He|Hlong]]; [discriminate|contradiction|].
    destruct (Z.eqb_spec (_maxchar self) 0); [lia|]. cbn [negb andb].
    destruct (Z.leb_spec (Z.min (_maxchar self - len (_input_string self) + 1)
                                (len text)) 0); [|lia].
    eexists. split; [reflexivity|]. reflexivity.
  - intros Hb Ht Hfit. unfold _paste. rewrite Ept, Hb.
    unfold str_eqb at 1. rewrite bool_decide_eq_false_2 by exact Ht.
    destruct (Z.eqb_spec (_maxchar self) 0); [lia|]. cbn [negb andb].
    assert (Hpos : 0 < len text).
    { pose proof (len_nonneg text). destruct (Z.eq_dec (len text) 0) as [E|E]; [|lia].
      apply len_nil_iff in E. contradiction. }
    rewrite Z.min_r by lia.
    destruct (Z.leb_spec (len text) 0); [lia|].
    rewrite slice_all.
    set (new := slice (_input_string self) 0 (_cursor_position self) ++ text
                ++ slice (_input_string self) (_cursor_position self)
                         (len (_input_string self))).
    assert (Hlen : len new = len (_input_string self) + len text).
    { subst new. rewrite !len_app.
      pose proof (len_slice_split (_input_string self) (_cursor_position self)). lia. }
    destruct (_check_input_type py_int py_float self new) eqn:Hcheck.
    + match goal with
      | |- context [_update_input_string ?t ?s] =>
          destruct (update_input_string_ok t s) as (hs & hc & hr & i & E & _)
      end.
      { match goal with
        | |- history_wf (Nat.iter ?k _ ?t) =>
            destruct (iter_move_cursor_right_frame k t) as (F1 & F2 & F3 & F4 & F5 & _)
        end.
        unfold history_wf. rewrite F1, F2, F3, F4, F5. exact Hwf. }
      rewrite E. cbn [bind]. eexists. split; [reflexivity|].
      cbn. split; [reflexivity|]. lia.
    + eexists. split; [reflexivity|]. cbn. split; [reflexivity|]. lia.
Qed.

End Paste.


Lemma paste_within_maxchar_witness :
  exists self',
    _paste decimal_int decimal_float (limited 5 ["a"; "b"] 1)
           [" "; "x"; "010"; "y"; " "] = Ok (self', true)
    /\ _input_string self' = ["a"; "x"; "y"; "b"]
    /\ len (_input_string self') <= 5.
Proof.
  assert (Hwf : history_wf (limited 5 ["a"; "b"] 1))
    by (repeat split; vm_compute; congruence).
  assert (Hctl : Forall (fun c => 31 <= ord c)
                   (remove_char 13 (remove_char 10 (strip [" "; "x"; "010"; "y"; " "])))).
  { vm_compute. repeat constructor; discriminate. }
  destruct (paste_within_maxchar decimal_int decimal_float
              (limited 5 ["a"; "b"] 1) [" "; "x"; "010"; "y"; " "]
              eq_refl Hwf Hctl) as [_ H].
  destruct H as (self' & E & Hs & Hl);
    [reflexivity | vm_compute; discriminate | vm_compute; discriminate |].
  exists self'. split; [exact E|]. split; [exact Hs | exact Hl].
Defined.

(** C4 as stated fails: a first paste of "x" into "ab" (limit 5)
    succeeds and blocks further pastes until a key is released; a second
    paste, with room for two more characters, returns [False] and
    inserts nothing. *)
Lemma paste_blocked_returns_false :
  exists once,
    _paste decimal_int decimal_float (limited 5 ["a"; "b"] 1) ["x"] = Ok (once, true)
    /\ _input_string once = ["a"; "x"; "b"]
    /\ len (_input_string once) + len ["x"] <= _maxchar once
    /\ _paste decimal_int decimal_float once ["x"] = Ok (once, false)
    /\ _paste decimal_int decimal_float once ["x"] <> Ok
         (set_input_string once ["a"; "x"; "x"; "b"], true).
Proof.
  eexists. split; [vm_compute; reflexivity|].
  split; [reflexivity|]. split; [vm_compute; discriminate|].
  split; [reflexivity|]. discriminate.
Qed.

End TextInputSpec.

(** * Further properties of the sound manager *)

Module SoundPlaying.
Import Sound.

Lemma type_sounds_NoDup : NoDup type_sounds.
Proof.
  unfold type_sounds.
  repeat (apply NoDup_cons; split;
          [rewrite ?not_elem_of_cons; repeat split; try discriminate;
           apply not_elem_of_nil|]).
  apply NoDup_nil. exact I.
Qed.

Section Host.

Variable isfile : string -> bool.
Variable mixer_Sound : string -> option mixer_sound.
Variable elapsed : Q -> Q -> Q -> bool.

(** X1.  A call of [set_sound] that passes the assertions, names one of
    the object's sound types and an existing file returns normally; the
    entry of that type then holds the loaded sound with the path, type,
    length, volume, loops, maxtime and fade given, or is the empty entry
    when the mixer could not read the file; the other entries, the
    channel and the list of types are as before. *)
Theorem set_sound_stores (self : Sound) (sound file : string)
    (volume : Q) (loops : Z) (maxtime fade_ms : Q) :
  set_sound_asserts volume loops maxtime fade_ms = true ->
  sound ∈ _type_sounds self ->
  isfile file = true ->
  let r := set_sound isfile mixer_Sound self sound (Some file) volume loops
                     maxtime fade_ms in
  snd r = Py.Ok tt
  /\ _sound (fst r) !! sound
     = Some (match mixer_Sound file with
             | Some d => Some (SoundEntry d file sound (get_length d) volume
                                          loops maxtime fade_ms)
             | None => None
             end)
  /\ (forall other, other <> sound ->
        _sound (fst r) !! other = _sound self !! other)
  /\ _channel (fst r) = _channel self
  /\ _uniquechannel (fst r) = _uniquechannel self
  /\ _type_sounds (fst r) = _type_sounds self.
Proof.
  intros Ha Hin Hf r. subst r. unfold set_sound.
  rewrite Ha, Hf. cbn [negb].
  rewrite bool_decide_eq_true_2 by exact Hin. cbn [negb].
  destruct (mixer_Sound file) as [d|]; cbn;
    (repeat split; [apply lookup_insert_eq|]);
    intros other Hne; apply lookup_insert_ne; congruence.
Qed.

End Host.

Lemma set_sound_stores_witness :
  _sound (fst (set_sound any_file one_second (__init__ true) SOUND_TYPE_EVENT
                         (Some "ding.ogg") (1 # 2) 2 0 0)) !! SOUND_TYPE_EVENT
  = Some (Some (SoundEntry (MixerSound "ding.ogg" 1) "ding.ogg" SOUND_TYPE_EVENT
                           1 (1 # 2) 2 0 0)).
Proof.
  destruct (set_sound_stores any_file one_second (__init__ true)
              SOUND_TYPE_EVENT "ding.ogg" (1 # 2) 2 0 0 eq_refl
              ltac:(repeat constructor) eq_refl) as (_ & H & _).
  exact H.
Defined.

(** The objects the public methods produce keep one entry per sound
    type. *)
Lemma sound_wf_init u : sound_wf (__init__ u).
Proof.
  split; [reflexivity|]. intros k. split.
  - unfold type_sounds. rewrite !elem_of_cons, elem_of_nil.
    intros Hin.
    repeat (destruct Hin as [->|Hin]; [eexists; vm_compute; reflexivity|]).
    contradiction.
  - intros [e He]. destruct (decide (k ∈ type_sounds)) as [Hin|Hnin]; [exact Hin|].
    exfalso. unfold type_sounds in Hnin. rewrite !not_elem_of_cons in Hnin.
    destruct Hnin as (N1 & N2 & N3 & N4 & N5 & N6 & N7 & N8 & _).
    revert He. unfold __init__, type_sounds. cbn [_sound foldl].
    rewrite !lookup_insert_ne by congruence. rewrite lookup_empty. discriminate.
Qed.

Section Wf.

Variable isfile : string -> bool.
Variable mixer_Sound : string -> option mixer_sound.
Variable elapsed : Q -> Q -> Q -> bool.

Lemma sound_wf_insert (self : Sound) (k : string) (e : option sound_entry) :
  sound_wf self -> k ∈ type_sounds -> sound_wf (set_sound_entry self k e).
Proof.
  intros [Ht Hk] Hin. split; [exact Ht|]. intros j. cbn.
  destruct (decide (k = j)) as [->|Hne].
  - rewrite lookup_insert_eq. split; eauto.
  - rewrite lookup_insert_ne by exact Hne. apply Hk.
Qed.

Lemma sound_wf_set_sound (self : Sound) sound file volume loops maxtime fade_ms :
  sound_wf self ->
  sound_wf (fst (set_sound isfile mixer_Sound self sound file volume loops
                           maxtime fade_ms)).
Proof.
  intros Hwf. unfold set_sound.
  destruct (set_sound_asserts volume loops maxtime fade_ms); cbn [negb]; [|exact Hwf].
  destruct (bool_decide_reflect (sound ∈ _type_sounds self)) as [Hin|Hnin];
    cbn [negb]; [|exact Hwf].
  rewrite (proj1 Hwf) in Hin.
  destruct file as [file|]; [|now apply sound_wf_insert].
  destruct (isfile file); cbn [negb]; [|exact Hwf].
  destruct (mixer_Sound file); now apply sound_wf_insert.
Qed.

Lemma sound_wf_get_channel (self : Sound) found :
  sound_wf self -> sound_wf (fst (get_channel self found)).
Proof.
  intros Hwf. unfold get_channel.
  destruct (_uniquechannel self); [destruct (_channel self)|]; exact Hwf.
Qed.

Lemma sound_wf_play_sound (self : Sound) sound found time :
  sound_wf self -> sound_wf (fst (_play_sound elapsed self sound found time)).
Proof.
  intros Hwf. unfold _play_sound. destruct sound as [e|]; [|exact Hwf].
  pose proof (sound_wf_get_channel self found Hwf) as Hg.
  destruct (get_channel self found) as [self1 [c|]]; exact Hg.
Qed.

(** X2.  The constructor gives every sound type an entry, [set_sound]
    (whatever its arguments and outcome), [get_channel] and the playing
    methods keep it so, and on such an object the lookup
    [self._sound[type]] of a [play_...] method finds its key: none of
    them raises [KeyError]. *)
Theorem play_finds_its_entry (self : Sound) (type_ : string)
    (found : option Channel) (time : Q) :
  sound_wf self -> type_ ∈ type_sounds ->
  (forall sound file volume loops maxtime fade_ms,
     sound_wf (fst (set_sound isfile mixer_Sound self sound file volume loops
                              maxtime fade_ms)))
  /\ sound_wf (fst (get_channel self found))
  /\ exists r, play elapsed type_ self found time = Some r /\ sound_wf (fst r).
Proof.
  intros Hwf Hin. split; [|split].
  - intros. now apply sound_wf_set_sound.
  - now apply sound_wf_get_channel.
  - unfold play. destruct (proj1 (proj2 Hwf type_) Hin) as [e He].
    rewrite He. eexists. split; [reflexivity|]. now apply sound_wf_play_sound.
Qed.

End Wf.

Lemma play_finds_its_entry_witness :
  exists r,
    play_key_add (fun _ _ _ => true)
      (fst (set_sound any_file one_second (__init__ true) SOUND_TYPE_EVENT
                      (Some "ding.ogg") (1 # 2) 0 0 0))
      (Some 2%nat) 10 = Some r
    /\ sound_wf (fst r).
Proof.
  destruct (play_finds_its_entry any_file one_second (fun _ _ _ => true)
              (fst (set_sound any_file one_second (__init__ true) SOUND_TYPE_EVENT
                              (Some "ding.ogg") (1 # 2) 0 0 0))
              SOUND_TYPE_KEY_ADDITION (Some 2%nat) 10
              (sound_wf_set_sound any_file one_second _ _ _ _ _ _ _
                 (sound_wf_init true))
              ltac:(repeat constructor)) as (_ & _ & H).
  exact H.
Defined.

End SoundPlaying.

(** * Playing sounds *)

Module SoundChannel.
Import Sound.

Section Host.

Variable isfile : string -> bool.
Variable mixer_Sound : string -> option mixer_sound.
Variable elapsed : Q -> Q -> Q -> bool.

(** X3.  Once a sound type has been disabled with [set_sound(type,
    None)], playing it makes no call on any channel and sets the stored
    channel to [None], a unique channel included: the next
    [get_channel] stores whatever the mixer finds then. *)
Theorem disabled_sound_drops_channel (self : Sound) (type_ : string)
    (volume : Q) (loops : Z) (maxtime fade_ms : Q)
    (found later : option Channel) (time : Q) :
  set_sound_asserts volume loops maxtime fade_ms = true ->
  type_ ∈ _type_sounds self ->
  exists self',
    play elapsed type_
         (fst (set_sound isfile mixer_Sound self type_ None volume loops
                         maxtime fade_ms)) found time
    = Some (self', [])
    /\ _channel self' = None
    /\ get_channel self' later = (set_channel self' later, later).
Proof.
  intros Ha Hin. unfold set_sound. rewrite Ha. cbn [negb].
  rewrite bool_decide_eq_true_2 by exact Hin. cbn [negb fst].
  unfold play. cbn [_sound set_sound_entry]. rewrite lookup_insert_eq.
  cbn [_play_sound]. eexists. split; [reflexivity|]. split; [reflexivity|].
  unfold get_channel. cbn. destruct (_uniquechannel self); reflexivity.
Qed.

(** X4.  With [uniquechannel=True] and a channel [c] stored, playing a
    configured sound always stops [c] and then plays the sound on [c]
    with the entry's loops, maxtime and fade_ms, whatever the mixer
    finds, whatever was played last and whenever; the type and the time
    are recorded as the last play. *)
Theorem unique_channel_restarts (self : Sound) (c : Channel)
    (sound : sound_entry) (found : option Channel) (time : Q) :
  _uniquechannel self = true -> _channel self = Some c ->
  _play_sound elapsed self (Some sound) found time
  = (set_last self (Some (entry_type sound)) time,
     [channel_stop c;
      channel_play c (entry_file sound) (entry_loops sound)
                   (entry_maxtime sound) (entry_fade_ms sound)]).
Proof.
  intros Hu Hc. unfold _play_sound, get_channel. rewrite Hu, Hc. cbn.
  rewrite Hc, Hu. rewrite !orb_true_r. reflexivity.
Qed.

(** X5.  With [uniquechannel=False] the channel is the one the mixer
    finds at that call.  If it finds none, nothing is played and the
    last type and time stay as they were.  If it finds [c], the sound is
    played on [c], never stopped first, unless it is the type played
    last and the host's test [time - last_time >= 0.2 * length] fails;
    either way the type and the time are recorded as the last play. *)
Theorem shared_channel_plays (self : Sound) (sound : sound_entry)
    (found : option Channel) (time : Q) :
  _uniquechannel self = false ->
  match found with
  | None =>
      _play_sound elapsed self (Some sound) found time
      = (set_channel self None, [])
  | Some c =>
      _play_sound elapsed self (Some sound) found time
      = (set_last (set_channel self (Some c)) (Some (entry_type sound)) time,
         if bool_decide (_last_play self = Some (entry_type sound))
            && negb (elapsed time (_last_time self) (entry_length sound))
         then []
         else [channel_play c (entry_file sound) (entry_loops sound)
                            (entry_maxtime sound) (entry_fade_ms sound)])
  end.
Proof.
  intros Hu. unfold _play_sound, get_channel. rewrite Hu.
  destruct found as [c|]; cbn; [|reflexivity].
  rewrite Hu, orb_false_r.
  destruct (bool_decide (_last_play self = Some (entry_type sound)));
    destruct (elapsed time (_last_time self) (entry_length sound)); reflexivity.
Qed.

End Host.

Lemma disabled_sound_drops_channel_witness :
  exists self',
    play (fun _ _ _ => true) SOUND_TYPE_EVENT
         (fst (set_sound any_file one_second
                 (set_channel (__init__ true) (Some 1%nat))
                 SOUND_TYPE_EVENT None (1 # 2) 0 0 0)) (Some 2%nat) 5
    = Some (self', [])
    /\ _channel self' = None
    /\ get_channel self' (Some 7%nat)
       = (set_channel self' (Some 7%nat), Some 7%nat).
Proof.
  exact (disabled_sound_drops_channel any_file one_second (fun _ _ _ => true)
           (set_channel (__init__ true) (Some 1%nat)) SOUND_TYPE_EVENT
           (1 # 2) 0 0 0 (Some 2%nat) (Some 7%nat) 5 eq_refl
           ltac:(repeat constructor)).
Defined.

Lemma unique_channel_restarts_witness :
  snd (_play_sound (fun _ _ _ => false)
         (set_channel (__init__ true) (Some 1%nat))
         (Some (SoundEntry (MixerSound "a.ogg" 1) "a.ogg" SOUND_TYPE_EVENT
                           1 (1 # 2) 0 0 0))
         (Some 2%nat) 5)
  = [channel_stop 1%nat; channel_play 1%nat (MixerSound "a.ogg" 1) 0 0 0].
Proof.
  rewrite (unique_channel_restarts (fun _ _ _ => false)
             (set_channel (__init__ true) (Some 1%nat)) 1%nat
             (SoundEntry (MixerSound "a.ogg" 1) "a.ogg" SOUND_TYPE_EVENT
                         1 (1 # 2) 0 0 0)
             (Some 2%nat) 5 eq_refl eq_refl).
  reflexivity.
Defined.

Lemma shared_channel_plays_witness :
  snd (_play_sound (fun _ _ _ => false)
         (set_last (__init__ false) (Some SOUND_TYPE_EVENT) 4)
         (Some (SoundEntry (MixerSound "a.ogg" 1) "a.ogg" SOUND_TYPE_EVENT
                           1 (1 # 2) 0 0 0))
         (Some 2%nat) 5)
  = [].
Proof.
  pose proof (shared_channel_plays (fun _ _ _ => false)
                (set_last (__init__ false) (Some SOUND_TYPE_EVENT) 4)
                (SoundEntry (MixerSound "a.ogg" 1) "a.ogg" SOUND_TYPE_EVENT
                            1 (1 # 2) 0 0 0)
                (Some 2%nat) 5 eq_refl) as H.
  cbv beta iota in H. rewrite H. reflexivity.
Defined.

End SoundChannel.

(** * The example sounds *)

Module SoundExamples.
Import Sound.

Lemma combine_map_snd {A B C} (f : B -> C) (ks : list A) (ns : list B) p :
  p ∈ combine ks (map f ns) -> exists n, n ∈ ns /\ snd p = f n.
Proof.
  revert ns. induction ks as [|k ks IH]; intros [|n ns] Hp; cbn in Hp;
    try (now apply elem_of_nil in Hp).
  apply elem_of_cons in Hp as [->|Hp].
  - exists n. split; [apply elem_of_cons; now left | reflexivity].
  - destruct (IH ns Hp) as (m & Hm & E). exists m.
    split; [apply elem_of_cons; now right | exact E].
Qed.

Lemma combine_map_lookup {A B C} (f : B -> C) (ks : list A) (ns : list B)
    (i : nat) k n :
  ks !! i = Some k -> ns !! i = Some n -> (k, f n) ∈ combine ks (map f ns).
Proof.
  revert ns i. induction ks as [|k0 ks IH]; intros [|n0 ns] [|i] Hk Hn;
    cbn in *; try discriminate.
  - injection Hk as ->. injection Hn as ->. apply elem_of_cons. now left.
  - apply elem_of_cons. right. now apply (IH ns i).
Qed.

Lemma combine_map_elem {A B C} (f : B -> C) (ks : list A) (ns : list B) n :
  length ks = length ns -> n ∈ ns ->
  exists k, (k, f n) ∈ combine ks (map f ns).
Proof.
  revert ns. induction ks as [|k0 ks IH]; intros [|n0 ns] Hlen Hn;
    cbn in *; try discriminate; try (now apply elem_of_nil in Hn).
  apply elem_of_cons in Hn as [->|Hn].
  - exists k0. apply elem_of_cons. now left.
  - destruct (IH ns ltac:(congruence) Hn) as [k Hk].
    exists k. apply elem_of_cons. now right.
Qed.

Section Host.

Variable isfile : string -> bool.
Variable mixer_Sound : string -> option mixer_sound.

Lemma set_sound_file (self : Sound) (sound file : string) (volume : Q) :
  set_sound_asserts volume 0 0 0 = true ->
  sound ∈ _type_sounds self ->
  set_sound isfile mixer_Sound self sound (Some file) volume 0 0 0
  = if isfile file
    then (set_sound_entry self sound (loaded mixer_Sound sound file volume), Py.Ok tt)
    else (self, Py.Raise Py.FileNotFoundError).
Proof.
  intros Ha Hin. unfold set_sound, loaded. rewrite Ha. cbn [negb].
  rewrite bool_decide_eq_true_2 by exact Hin. cbn [negb].
  destruct (isfile file); cbn [negb]; [|reflexivity].
  destruct (mixer_Sound file); reflexivity.
Qed.

Lemma set_sounds_all (pairs : list (string * string)) (volume : Q) :
  set_sound_asserts volume 0 0 0 = true ->
  NoDup (map fst pairs) ->
  forall self,
    Forall (fun p => fst p ∈ _type_sounds self /\ isfile (snd p) = true) pairs ->
    snd (set_sounds isfile mixer_Sound self pairs volume) = Py.Ok tt
    /\ (forall p, p ∈ pairs ->
          _sound (fst (set_sounds isfile mixer_Sound self pairs volume)) !! fst p
          = Some (loaded mixer_Sound (fst p) (snd p) volume))
    /\ (forall k, k ∉ map fst pairs ->
          _sound (fst (set_sounds isfile mixer_Sound self pairs volume)) !! k
          = _sound self !! k).
Proof.
  intros Ha. induction pairs as [|[sound file] pairs IH]; intros Hnd self Hall.
  - cbn. split; [reflexivity|]. split; [|reflexivity].
    intros p Hp. now apply elem_of_nil in Hp.
  - cbn [map fst] in Hnd. apply NoDup_cons in Hnd as [Hfresh Hnd].
    apply Forall_cons in Hall as [[Hin Hfile] Hall]. cbn [fst snd] in Hin, Hfile.
    cbn [set_sounds]. rewrite (set_sound_file self sound file volume Ha Hin), Hfile.
    destruct (IH Hnd (set_sound_entry self sound (loaded mixer_Sound sound file volume)) Hall)
      as (Hok & Hset & Hother).
    split; [exact Hok|]. split.
    + intros p Hp. apply elem_of_cons in Hp as [->|Hp]; [|now apply Hset].
      cbn [fst snd]. rewrite (Hother sound Hfresh). cbn. apply lookup_insert_eq.
    + intros k Hk. cbn [map fst] in Hk. apply not_elem_of_cons in Hk as [Hne Hk].
      rewrite (Hother k Hk). cbn. apply lookup_insert_ne. congruence.
Qed.

Lemma set_sounds_missing (pairs : list (string * string)) (volume : Q) :
  set_sound_asserts volume 0 0 0 = true ->
  forall self,
    Forall (fun p => fst p ∈ _type_sounds self) pairs ->
    Exists (fun p => isfile (snd p) = false) pairs ->
    snd (set_sounds isfile mixer_Sound self pairs volume)
    = Py.Raise Py.FileNotFoundError.
Proof.
  intros Ha. induction pairs as [|[sound file] pairs IH]; intros self Hall Hex.
  - now apply Exists_nil in Hex.
  - apply Forall_cons in Hall as [Hin Hall]. cbn [fst] in Hin.
    cbn [set_sounds]. rewrite (set_sound_file self sound file volume Ha Hin).
    destruct (isfile file) eqn:Hfile; [|reflexivity].
    apply Exists_cons in Hex as [Hex|Hex]; [cbn in Hex; congruence|].
    apply IH; [exact Hall | exact Hex].
Qed.

(** X6.  [load_example_sounds(volume)], with a volume between 0 and 1:
    when the eight example files exist, it returns normally and every
    sound type holds the example of the same rank, loaded with that
    volume and with loops, maxtime and fade_ms 0 (or the empty entry if
    the mixer cannot read the file); when one of the files is missing it
    raises [FileNotFoundError]. *)
Theorem load_example_sounds_all_or_error (actualpath : string) (self : Sound)
    (volume : Q) :
  _type_sounds self = type_sounds ->
  set_sound_asserts volume 0 0 0 = true ->
  ((forall name, name ∈ example_names ->
      isfile (example_path actualpath name) = true) ->
   snd (load_example_sounds isfile mixer_Sound actualpath self volume) = Py.Ok tt
   /\ forall i sound name,
        type_sounds !! i = Some sound -> example_names !! i = Some name ->
        _sound (fst (load_example_sounds isfile mixer_Sound actualpath self volume))
          !! sound
        = Some (loaded mixer_Sound sound (example_path actualpath name) volume))
  /\ ((exists name, name ∈ example_names
                    /\ isfile (example_path actualpath name) = false) ->
      snd (load_example_sounds isfile mixer_Sound actualpath self volume)
      = Py.Raise Py.FileNotFoundError).
Proof.
  intros Hty Ha. unfold load_example_sounds. rewrite Hty.
  set (pairs := combine type_sounds (map (example_path actualpath) example_names)).
  assert (Hfst : map fst pairs = type_sounds) by reflexivity.
  assert (Hvalid : Forall (fun p => fst p ∈ _type_sounds self) pairs).
  { rewrite Hty. apply Forall_forall. intros p Hp.
    rewrite <- Hfst. apply list_elem_of_fmap. exists p. split; [reflexivity|exact Hp]. }
  split.
  - intros Hfiles.
    destruct (set_sounds_all pairs volume Ha) with (self := self)
      as (Hok & Hset & _).
    { rewrite Hfst. apply SoundPlaying.type_sounds_NoDup. }
    { apply Forall_forall. intros p Hp. split.
      - eapply Forall_forall in Hvalid; [exact Hvalid|exact Hp].
      - destruct (combine_map_snd _ _ _ _ Hp) as (name & Hname & ->).
        now apply Hfiles. }
    split; [exact Hok|].
    intros i sound name Hs Hn.
    apply (Hset (sound, example_path actualpath name)).
    now apply combine_map_lookup with (i := i).
  - intros (name & Hin & Hmiss).
    apply set_sounds_missing; [exact Ha | exact Hvalid|].
    apply Exists_exists.
    destruct (combine_map_elem (example_path actualpath) type_sounds
                example_names name eq_refl Hin) as [k Hk].
    exists (k, example_path actualpath name). split; [exact Hk | exact Hmiss].
Qed.

End Host.

Lemma load_example_sounds_all_or_error_witness :
  snd (load_example_sounds any_file one_second "/pkg" (__init__ true) (1 # 2))
  = Py.Ok tt
  /\ snd (load_example_sounds no_file no_mixer_sound "/pkg" (__init__ true) (1 # 2))
     = Py.Raise Py.FileNotFoundError.
Proof.
  destruct (load_example_sounds_all_or_error any_file one_second "/pkg"
              (__init__ true) (1 # 2) eq_refl eq_refl) as [H1 _].
  destruct (load_example_sounds_all_or_error no_file no_mixer_sound "/pkg"
              (__init__ true) (1 # 2) eq_refl eq_refl) as [_ H2].
  split.
  - apply H1. reflexivity.
  - apply H2. exists "error". split; [repeat constructor | reflexivity].
Defined.

End SoundExamples.

(** * Further properties of the text-input widget: the render window *)

Module TextInputWindow.
Import Py TextInput TextInputSpec.
Local Open Scope Z_scope.

(** X7.  With a width limit, [_update_renderbox(end=True)] puts the
    window over the last [maxwidth] characters with the inner position
    at its right end, and [_update_renderbox(start=True)] over the first
    ones with the inner position at 0, whatever the window was and
    whatever the other arguments are; in both cases the window then lies
    inside the text, is at most [maxwidth] wide, and the inner position
    lies inside it. *)
Theorem home_end_window (self : TextInput) (left right : Z)
    (addition start : bool) :
  0 < _maxwidth self ->
  (_renderbox (_update_renderbox self left right addition true start)
   = RB (Z.max 0 (len (_input_string self) - _maxwidth self))
        (len (_input_string self))
        (Z.min (len (_input_string self)) (_maxwidth self))
   /\ renderbox_inv (_update_renderbox self left right addition true start))
  /\ (_renderbox (_update_renderbox self left right addition false true)
      = RB 0 (Z.min (len (_input_string self)) (_maxwidth self)) 0
      /\ renderbox_inv (_update_renderbox self left right addition false true)).
Proof.
  intros Hw. pose proof (len_nonneg (_input_string self)) as Hl.
  unfold _update_renderbox.
  cbn [_maxwidth set_cursor_render _input_string].
  destruct (Z.eqb_spec (_maxwidth self) 0) as [E|_]; [lia|].
  split; (split; [reflexivity|]); unfold renderbox_inv; cbn; lia.
Qed.

Lemma home_end_window_witness :
  _renderbox (_update_renderbox windowed 0 0 false true false) = RB 2 5 3
  /\ _renderbox (_update_renderbox windowed 0 0 false false true) = RB 0 3 0.
Proof.
  destruct (home_end_window windowed 0 0 false false eq_refl)
    as [[H1 _] [H2 _]].
  split; [exact H1 | exact H2].
Defined.

(** X8.  [_update_renderbox] changes nothing but the render box and
    the flag that asks for the cursor to be drawn again: the text, the
    cursor, the history, the clipboard lock, the limits and the log of
    outgoing calls are as before; and without a width limit
    ([maxwidth = 0]) the render box is left alone too. *)
Theorem update_renderbox_frame (self : TextInput) (left right : Z)
    (addition end_ start : bool) :
  let t := _update_renderbox self left right addition end_ start in
  _input_string t = _input_string self
  /\ _cursor_position t = _cursor_position self
  /\ _history t = _history self
  /\ _history_cursor t = _history_cursor self
  /\ _history_renderbox t = _history_renderbox self
  /\ _history_index t = _history_index self
  /\ _block_copy_paste t = _block_copy_paste self
  /\ _maxchar t = _maxchar self /\ _maxwidth t = _maxwidth self
  /\ effects t = effects self
  /\ _cursor_render t = true
  /\ (_maxwidth self = 0 -> _renderbox t = _renderbox self).
Proof.
  intros t. subst t.
  assert (H0 : _maxwidth self = 0 ->
               _renderbox (_update_renderbox self left right addition end_ start)
               = _renderbox self).
  { intros H0. unfold _update_renderbox.
    cbn [_maxwidth set_cursor_render]. rewrite H0. reflexivity. }
  revert H0.
  destruct (update_renderbox_shape self left right addition end_ start) as [b E].
  rewrite E. cbn. intros H0. repeat split. exact H0.
Qed.


(** What the last two blocks of [_update_renderbox] make of any box
    when the text overflows. *)
Lemma string_limits_inv (w ls : Z) (b : renderbox) :
  0 < w < ls ->
  let b1 := rb_set1 b (Z.max w (Z.min (rb1 b) ls)) in
  let b2 := apply_limits w ls (rb_set0 b1 (rb1 b1 - w)) in
  0 <= rb0 b2 <= rb1 b2 /\ rb1 b2 - rb0 b2 = w /\ rb1 b2 <= ls
  /\ 0 <= rb2 b2 <= Z.min w ls.
Proof. intros Hw. destruct b as [x y z]. cbn. lia. Qed.

(** X9.  When the text is longer than the width limit and the call is
    neither [end] nor [start] nor one of the two early returns of the
    overflow branch (a deletion to the right with the inner position at
    the right end of the window, a deletion to the left with the inner
    position at 0), [_update_renderbox] leaves a window exactly
    [maxwidth] wide that lies inside the text, with the inner position
    inside the window: the render-window invariant holds whatever the
    box was before. *)
Theorem overflow_window_limits (self : TextInput) (left right : Z)
    (addition : bool) :
  0 < _maxwidth self < len (_input_string self) ->
  ~ (addition = true /\ right < 0 /\ rb2 (_renderbox self) = _maxwidth self) ->
  ~ (addition = true /\ left < 0 /\ rb2 (_renderbox self) = 0) ->
  renderbox_inv (_update_renderbox self left right addition false false)
  /\ rb1 (_renderbox (_update_renderbox self left right addition false false))
     - rb0 (_renderbox (_update_renderbox self left right addition false false))
     = _maxwidth self.
Proof.
  intros Hw Hdel Hback. unfold _update_renderbox.
  cbn [_maxwidth set_cursor_render _input_string _renderbox].
  destruct (Z.eqb_spec (_maxwidth self) 0); [lia|].
  destruct (Z.eqb_spec (len (_input_string self)) 0); [lia|].
  rewrite andb_false_r.
  destruct (Z.leb_spec (len (_input_string self)) (_maxwidth self)); [lia|].
  assert (E1 : addition && (right <? 0) && (rb2 (_renderbox self) =? _maxwidth self)
               = false).
  { destruct addition; [|reflexivity]. cbn [andb].
    destruct (Z.ltb_spec right 0); [|reflexivity].
    destruct (Z.eqb_spec (rb2 (_renderbox self)) (_maxwidth self)); [|reflexivity].
    exfalso. apply Hdel. auto. }
  assert (E2 : addition && (left <? 0) && (rb2 (_renderbox self) =? 0) = false).
  { destruct addition; [|reflexivity]. cbn [andb].
    destruct (Z.ltb_spec left 0); [|reflexivity].
    destruct (Z.eqb_spec (rb2 (_renderbox self)) 0); [|reflexivity].
    exfalso. apply Hback. auto. }
  rewrite E1, E2.
  match goal with
  | |- context [apply_limits ?w ?ls (rb_set0 (rb_set1 ?b ?v) ?u)] =>
      set (bx := b); pose proof (string_limits_inv w ls bx Hw) as Hinv;
      clearbody bx
  end.
  cbv zeta in Hinv. unfold renderbox_inv.
  cbn [_renderbox set_renderbox _maxwidth _input_string set_cursor_render].
  cbn [rb1 rb_set1] in Hinv |- *.
  destruct Hinv as (H1 & H2 & H3 & H4).
  repeat split; try lia.
Qed.

Lemma overflow_window_limits_witness :
  renderbox_inv (_update_renderbox windowed 0 1 false false false)
  /\ rb1 (_renderbox (_update_renderbox windowed 0 1 false false false))
     - rb0 (_renderbox (_update_renderbox windowed 0 1 false false false)) = 3.
Proof.
  apply (overflow_window_limits windowed 0 1 false).
  - vm_compute. split; reflexivity.
  - intros [H _]. discriminate H.
  - intros [H _]. discriminate H.
Defined.

End TextInputWindow.

(** * Further properties of the text-input widget: keys *)

Module TextInputKeys.
Import Py TextInput TextInputSpec.
Local Open Scope char_scope.
Local Open Scope Z_scope.

(** A key that reaches the last branch of the chain in [update]. *)
Ltac skip_key H :=
  rewrite (bool_decide_eq_false_2 _ H).

Section Keys.

Context {F : Type}.
Variable py_int : str -> option Z.
Variable py_float : str -> option F.
Variable ctrl : controls.

(** X10.  Typing.  A key press the host accepts, without the control
    key, for a key that is none of the editing keys, not the Enter
    binding and not an ignored key, carrying one character [c] that
    [repr] does not escape, on a widget that is not over its size limit
    and whose type accepts the result: the text becomes
    [s[:p] + c + s[p:]], the cursor [p + 1], the addition sound is
    played, [change] is called, and [update] returns [True]. *)
Theorem typed_character (self : TextInput) (k : key) (c : ascii) (h : host) :
  history_wf self ->
  key_pressed_valid h = true -> mods_ctrl h = false ->
  k <> K_BACKSPACE -> k <> K_DELETE -> k <> K_RIGHT -> k <> K_LEFT ->
  k <> K_END -> k <> K_HOME -> k <> MENU_CTRL_ENTER ctrl ->
  k ∉ _ignore_keys self ->
  _check_input_size self = false ->
  unwanted_escape [c] = false ->
  _check_input_type py_int py_float self
    (slice_to (_input_string self) (_cursor_position self) ++ [c]
     ++ slice_from (_input_string self) (_cursor_position self)) = true ->
  exists self',
    update py_int py_float ctrl self [KEYDOWN k [c] h] = Ok (self', Some true)
    /\ _input_string self'
       = slice_to (_input_string self) (_cursor_position self) ++ [c]
         ++ slice_from (_input_string self) (_cursor_position self)
    /\ _cursor_position self' = _cursor_position self + 1
    /\ effects self' = effects self ++ [play_key_add; widget_change].
Proof.
  intros Hwf Hvalid Hctrl N1 N2 N3 N4 N5 N6 N7 Hign Hsize Hesc Hty.
  unfold update. cbn [update_events]. rewrite Hvalid, Hctrl. cbn [negb].
  skip_key N1. skip_key N2. skip_key N3. skip_key N4. skip_key N5.
  skip_key N6. skip_key N7.
  cbn [_ignore_keys set_key_state]. skip_key Hign. cbn [negb].
  change (_check_input_size (set_key_state self true true (Some k)))
    with (_check_input_size self).
  rewrite Hsize, Hesc.
  cbn [_input_string _cursor_position set_key_state].
  change (_check_input_type py_int py_float
            (set_key_state self true true (Some k)))
    with (_check_input_type py_int py_float self).
  rewrite Hty. cbn [len length Z.of_nat Z.ltb Z.compare Pos.of_succ_nat].
  match goal with
  | |- context [_update_renderbox ?t ?l ?r ?a ?e ?st] =>
      destruct (update_renderbox_shape t l r a e st) as [b Eb]
  end.
  rewrite Eb.
  match goal with
  | |- context [_update_input_string ?t ?s] =>
      destruct (update_input_string_ok t s) as (hs & hc & hr & i & E & _)
  end.
  { destruct Hwf as (H1 & H2 & H3 & H4). repeat split; cbn; lia. }
  rewrite E. cbn [bind update_events]. eexists. split; [reflexivity|].
  cbn. repeat split. now rewrite <- app_assoc.
Qed.

(** X11.  The size limit on typing.  When [maxchar] is set and the text
    is already longer than it, such a key press changes neither text nor
    cursor, plays the error sound and ends the event loop: the events
    that follow in the same call are not handled, and [update] returns
    [False]. *)
Theorem typing_over_limit_stops (self : TextInput) (k : key) (u : str)
    (h : host) (rest : list event) :
  key_pressed_valid h = true -> mods_ctrl h = false ->
  k <> K_BACKSPACE -> k <> K_DELETE -> k <> K_RIGHT -> k <> K_LEFT ->
  k <> K_END -> k <> K_HOME -> k <> MENU_CTRL_ENTER ctrl ->
  k ∉ _ignore_keys self ->
  _maxchar self <> 0 -> _maxchar self < len (_input_string self) ->
  exists self',
    update py_int py_float ctrl self (KEYDOWN k u h :: rest) = Ok (self', Some false)
    /\ update py_int py_float ctrl self [KEYDOWN k u h] = Ok (self', Some false)
    /\ _input_string self' = _input_string self
    /\ _cursor_position self' = _cursor_position self
    /\ effects self' = effects self ++ [play_event_error].
Proof.
  intros Hvalid Hctrl N1 N2 N3 N4 N5 N6 N7 Hign Hmax Hlong.
  unfold update. cbn [update_events]. rewrite Hvalid, Hctrl. cbn [negb].
  skip_key N1. skip_key N2. skip_key N3. skip_key N4. skip_key N5.
  skip_key N6. skip_key N7.
  cbn [_ignore_keys set_key_state]. skip_key Hign. cbn [negb].
  unfold _check_input_size. cbn [_maxchar _input_string set_key_state].
  destruct (Z.eqb_spec (_maxchar self) 0); [contradiction|].
  destruct (Z.ltb_spec (_maxchar self) (len (_input_string self))); [|lia].
  eexists. repeat split.
Qed.

(** X12.  The cursor keys.  An accepted press of Left, Right, Home or
    End without the control key leaves the text as it is and moves the
    cursor to [max(p-1, 0)], [min(p+1, len)], 0 or [len]; Left at 0 and
    Right at the end play the error sound instead of the key sound; and
    [update] returns [True]. *)
Theorem cursor_keys (self : TextInput) (u : str) (h : host) :
  key_pressed_valid h = true -> mods_ctrl h = false ->
  (exists t, update py_int py_float ctrl self [KEYDOWN K_LEFT u h] = Ok (t, Some true)
     /\ _input_string t = _input_string self
     /\ _cursor_position t = Z.max (_cursor_position self - 1) 0
     /\ effects t = effects self
                    ++ [if _cursor_position self =? 0
                        then play_event_error else play_key_add])
  /\ (exists t, update py_int py_float ctrl self [KEYDOWN K_RIGHT u h] = Ok (t, Some true)
     /\ _input_string t = _input_string self
     /\ _cursor_position t
        = Z.min (_cursor_position self + 1) (len (_input_string self))
     /\ effects t = effects self
                    ++ [if _cursor_position self =? len (_input_string self)
                        then play_event_error else play_key_add])
  /\ (exists t, update py_int py_float ctrl self [KEYDOWN K_HOME u h] = Ok (t, Some true)
     /\ _input_string t = _input_string self /\ _cursor_position t = 0
     /\ effects t = effects self ++ [play_key_add])
  /\ (exists t, update py_int py_float ctrl self [KEYDOWN K_END u h] = Ok (t, Some true)
     /\ _input_string t = _input_string self
     /\ _cursor_position t = len (_input_string self)
     /\ effects t = effects self ++ [play_key_add]).
Proof.
  intros Hvalid Hctrl.
  repeat split_and;
    unfold update; cbn [update_events]; rewrite Hvalid, Hctrl; cbn [negb];
    repeat (first [rewrite bool_decide_eq_true_2 by reflexivity
                  | rewrite bool_decide_eq_false_2 by discriminate]);
    rewrite ?emit_if;
    unfold _move_cursor_left, _move_cursor_right;
    match goal with
    | |- context [_update_renderbox ?t ?l ?r ?a ?e ?st] =>
        destruct (update_renderbox_shape t l r a e st) as [b Eb]; rewrite Eb
    end;
    eexists; (split; [reflexivity|]); cbn; repeat split.
Qed.

End Keys.


Lemma typed_character_witness :
  exists self',
    update decimal_int decimal_float default_controls
           (set_cursor_position (holding PYGAME_INPUT_TEXT ["a"; "b"]) 1)
           [KEYDOWN (K_code 120) ["x"] plain] = Ok (self', Some true)
    /\ _input_string self' = ["a"; "x"; "b"]
    /\ _cursor_position self' = 2.
Proof.
  assert (Hwf : history_wf
            (set_cursor_position (holding PYGAME_INPUT_TEXT ["a"; "b"]) 1))
    by (repeat split; vm_compute; congruence).
  destruct (typed_character decimal_int decimal_float default_controls
              (set_cursor_position (holding PYGAME_INPUT_TEXT ["a"; "b"]) 1)
              (K_code 120) "x" plain Hwf eq_refl eq_refl)
    as (self' & E & Hs & Hp & _); try discriminate.
  - apply not_elem_of_nil.
  - reflexivity.
  - reflexivity.
  - vm_compute. reflexivity.
  - exists self'. split; [exact E|]. split; [exact Hs | exact Hp].
Defined.

Lemma typing_over_limit_stops_witness :
  exists self',
    update decimal_int decimal_float default_controls
           (limited 2 ["a"; "b"; "c"] 3)
           [KEYDOWN (K_code 120) ["x"] plain; KEYDOWN K_HOME [] plain]
    = Ok (self', Some false)
    /\ _input_string self' = ["a"; "b"; "c"]
    /\ _cursor_position self' = 3.
Proof.
  destruct (typing_over_limit_stops decimal_int decimal_float default_controls
              (limited 2 ["a"; "b"; "c"] 3) (K_code 120) ["x"] plain
              [KEYDOWN K_HOME [] plain] eq_refl eq_refl)
    as (self' & E & _ & Hs & Hp & _); try discriminate.
  - apply not_elem_of_nil.
  - vm_compute. reflexivity.
  - exists self'. split; [exact E|]. split; [exact Hs | exact Hp].
Defined.

Lemma cursor_keys_witness :
  exists t,
    update decimal_int decimal_float default_controls
           (holding PYGAME_INPUT_TEXT ["a"; "b"]) [KEYDOWN K_END [] plain]
    = Ok (t, Some true)
    /\ _cursor_position t = 2.
Proof.
  destruct (cursor_keys decimal_int decimal_float default_controls
              (holding PYGAME_INPUT_TEXT ["a"; "b"]) [] plain eq_refl eq_refl)
    as (_ & _ & _ & t & E & _ & Hp & _).
  exists t. split; [exact E | exact Hp].
Defined.

End TextInputKeys.

(** * Further properties of the text-input widget: the clipboard *)

Module TextInputClipboard.
Import Py TextInput TextInputSpec.
Local Open Scope char_scope.
Local Open Scope Z_scope.

Section Clipboard.

Context {F : Type}.
Variable py_int : str -> option Z.
Variable py_float : str -> option F.
Variable ctrl : controls.

(** X13.  Ctrl+C copies the whole text once per key press: the first
    accepted Ctrl+C hands the text to the clipboard and returns [True];
    a second one before any key is released copies nothing and returns
    [False]; a [KEYUP] lifts the lock. *)
Theorem copy_once_until_keyup (self : TextInput) (u : str) (h : host)
    (released : key) :
  key_pressed_valid h = true -> mods_ctrl h = true ->
  _block_copy_paste self = false ->
  exists first second third,
    update py_int py_float ctrl self [KEYDOWN K_c u h] = Ok (first, Some true)
    /\ effects first = effects self ++ [copy (_input_string self)]
    /\ _input_string first = _input_string self
    /\ update py_int py_float ctrl first [KEYDOWN K_c u h] = Ok (second, Some false)
    /\ effects second = effects first
    /\ update py_int py_float ctrl second [KEYUP released] = Ok (third, Some false)
    /\ _block_copy_paste third = false.
Proof.
  intros Hvalid Hctrl Hb.
  unfold update. cbn [update_events]. rewrite Hvalid, Hctrl. cbn [negb].
  unfold _copy. cbn [_block_copy_paste set_key_state]. rewrite Hb.
  eexists. eexists. eexists.
  split; [reflexivity|]. split; [reflexivity|]. split; [reflexivity|].
  cbn [_block_copy_paste set_key_state set_block_copy_paste emit].
  split; [reflexivity|]. split; [reflexivity|]. split; reflexivity.
Qed.

(** X14.  Ctrl+X: an accepted press empties the text, puts the cursor
    and the three cells of the render box at 0, plays the deletion
    sound, hands the old text to the clipboard unless copying is locked,
    and makes [update] return [None], not a boolean. *)
Theorem cut_empties (self : TextInput) (u : str) (h : host) :
  history_wf self ->
  key_pressed_valid h = true -> mods_ctrl h = true ->
  exists t,
    update py_int py_float ctrl self [KEYDOWN K_x u h] = Ok (t, None)
    /\ _input_string t = [] /\ _cursor_position t = 0
    /\ _renderbox t = RB 0 0 0
    /\ effects t
       = effects self ++ play_key_del
         :: (if _block_copy_paste self then []
             else [copy (_input_string self)]).
Proof.
  intros Hwf Hvalid Hctrl.
  unfold update. cbn [update_events]. rewrite Hvalid, Hctrl. cbn [negb].
  unfold _cut, _copy. cbn [_block_copy_paste set_key_state emit].
  destruct (_block_copy_paste self) eqn:Hb; cbn [fst];
    match goal with
    | |- context [_update_input_string ?t ?s] =>
        destruct (update_input_string_ok t s) as (hs & hc & hr & i & E & _);
          [destruct Hwf as (H1 & H2 & H3 & H4); repeat split; cbn; lia|]
    end;
    rewrite E; cbn [bind]; eexists; (split; [reflexivity|]); cbn;
    repeat split; now rewrite <- app_assoc.
Qed.

(** X15.  The size limit on pasting.  With [maxchar > 0], [_paste]
    always returns; when it returns [False] the text is unchanged, and
    in every case the text afterwards is no longer than the longer of
    the text before and [maxchar + 1]. *)
Theorem paste_length_bound (self : TextInput) (pasted : str) :
  0 < _maxchar self -> history_wf self ->
  exists t b,
    _paste py_int py_float self pasted = Ok (t, b)
    /\ (b = false -> _input_string t = _input_string self)
    /\ len (_input_string t)
       <= Z.max (len (_input_string self)) (_maxchar self + 1).
Proof.
  intros Hmax Hwf. unfold _paste.
  set (text := paste_text pasted).
  pose proof (len_nonneg (_input_string self)) as Hls.
  pose proof (len_nonneg text) as Hlt.
  destruct (_block_copy_paste self).
  { eexists _, _. split; [reflexivity|]. split; [reflexivity|]. lia. }
  destruct (str_eqb text []).
  { eexists _, _. split; [reflexivity|]. split; [reflexivity|]. lia. }
  destruct (Z.eqb_spec (_maxchar self) 0); [lia|]. cbn [negb andb].
  set (e := Z.min (_maxchar self - len (_input_string self) + 1) (len text)).
  destruct (Z.leb_spec e 0).
  { eexists _, _. split; [reflexivity|]. split; [reflexivity|]. cbn. lia. }
  set (new := slice (_input_string self) 0 (_cursor_position self)
              ++ slice text 0 e
              ++ slice (_input_string self) (_cursor_position self)
                       (len (_input_string self))).
  assert (Hlen : len new <= _maxchar self + 1).
  { subst new. rewrite !len_app.
    pose proof (len_slice_split (_input_string self) (_cursor_position self)).
    destruct (slice_in_range text 0 e) as [_ He]; subst e; lia. }
  destruct (_check_input_type py_int py_float self new).
  - match goal with
    | |- context [_update_input_string ?t ?s] =>
        destruct (update_input_string_ok t s) as (hs & hc & hr & i & E & _)
    end.
    { match goal with
      | |- history_wf (Nat.iter ?k _ ?t) =>
          destruct (iter_move_cursor_right_frame k t) as (F1 & F2 & F3 & F4 & F5 & _)
      end.
      unfold history_wf. rewrite F1, F2, F3, F4, F5. exact Hwf. }
    rewrite E. cbn [bind]. eexists _, _. split; [reflexivity|].
    cbn. split; [discriminate|]. lia.
  - eexists _, _. split; [reflexivity|]. cbn. split; [reflexivity|]. lia.
Qed.

End Clipboard.

(** X16.  The table [_paste] hands to [str.translate] deletes nothing:
    the translated text has the length of the original, a character of
    code at most 30 becomes the character of the next code, and every
    other character stays.  A tab inside the clipboard text is so
    pasted as a line feed. *)
Theorem translate_shifts_controls (s : str) (c : ascii) :
  length (translate escapes s) = length s
  /\ (ord c <= 30 ->
      exists c', translate escapes [c] = [c'] /\ ord c' = ord c + 1)
  /\ (31 <= ord c -> translate escapes [c] = [c])
  /\ paste_text ["a"; "009"; "b"] = ["a"; "010"; "b"].
Proof.
  split; [apply length_map|]. split; [|split; [|reflexivity]].
  - intros Hc.
    destruct c as [[] [] [] [] [] [] [] []];
      first [ vm_compute in Hc; exfalso; apply Hc; reflexivity
            | eexists; split; reflexivity ].
  - intros Hc. apply translate_escapes_id. constructor; [exact Hc|constructor].
Qed.

Lemma translate_shifts_controls_witness :
  exists c', translate escapes ["009"] = [c'] /\ ord c' = 10.
Proof.
  destruct (translate_shifts_controls [] "009") as (_ & H & _).
  apply H. vm_compute. discriminate.
Defined.

Lemma copy_once_until_keyup_witness :
  exists first,
    update decimal_int decimal_float default_controls
           (holding PYGAME_INPUT_TEXT ["a"; "b"]) [KEYDOWN K_c [] (with_ctrl [])]
    = Ok (first, Some true)
    /\ effects first = [copy ["a"; "b"]].
Proof.
  destruct (copy_once_until_keyup decimal_int decimal_float default_controls
              (holding PYGAME_INPUT_TEXT ["a"; "b"]) [] (with_ctrl []) K_c
              eq_refl eq_refl eq_refl)
    as (first & _ & _ & E & He & _).
  exists first. split; [exact E | exact He].
Defined.

Lemma cut_empties_witness :
  exists t,
    update decimal_int decimal_float default_controls
           (holding PYGAME_INPUT_TEXT ["a"; "b"]) [KEYDOWN K_x [] (with_ctrl [])]
    = Ok (t, None)
    /\ _input_string t = [].
Proof.
  assert (Hwf : history_wf (holding PYGAME_INPUT_TEXT ["a"; "b"]))
    by (repeat split; vm_compute; congruence).
  destruct (cut_empties decimal_int decimal_float default_controls
              (holding PYGAME_INPUT_TEXT ["a"; "b"]) [] (with_ctrl [])
              Hwf eq_refl eq_refl) as (t & E & Hs & _).
  exists t. split; [exact E | exact Hs].
Defined.

Lemma paste_length_bound_witness :
  exists t b,
    _paste decimal_int decimal_float (limited 3 ["a"; "b"; "c"] 3)
           ["x"; "y"; "z"] = Ok (t, b)
    /\ len (_input_string t) <= 4.
Proof.
  assert (Hwf : history_wf (limited 3 ["a"; "b"; "c"] 3))
    by (repeat split; vm_compute; congruence).
  destruct (paste_length_bound decimal_int decimal_float
              (limited 3 ["a"; "b"; "c"] 3) ["x"; "y"; "z"] eq_refl Hwf)
    as (t & b & E & _ & Hl).
  exists t, b. split; [exact E | exact Hl].
Defined.

End TextInputClipboard.

(** * Further properties of the text-input widget: history and construction *)

Module TextInputHistory.
Import Py TextInput TextInputSpec.
Local Open Scope char_scope.
Local Open Scope Z_scope.

Section Keys.

Context {F : Type}.
Variable py_int : str -> option Z.
Variable py_float : str -> option F.
Variable ctrl : controls.



(** X19.  Input types other than the numeric ones: a widget declared
    [PYGAME_INPUT_TEXT] accepts every text, and a widget declared with a
    type that is none of the three known ones accepts only the empty
    text and ["-"]. *)
Theorem check_input_type_text_and_unknown (self : TextInput) (string : str) :
  (_input_type self = PYGAME_INPUT_TEXT ->
   _check_input_type py_int py_float self string = true)
  /\ (forall name, _input_type self = INPUT_OTHER name ->
      (_check_input_type py_int py_float self string = true
       <-> string = [] \/ string = ["-"])).
Proof.
  unfold _check_input_type. split.
  - intros ->. now destruct (str_eqb string []).
  - intros name ->. unfold str_eqb.
    repeat case_bool_decide; subst; try tauto.
    split; [discriminate|]. intros [H1|H1]; contradiction.
Qed.

End Keys.


Lemma check_input_type_text_and_unknown_witness :
  _check_input_type decimal_int decimal_float
    (holding PYGAME_INPUT_TEXT []) ["3"; "."; "5"] = true.
Proof.
  apply (proj1 (check_input_type_text_and_unknown decimal_int decimal_float
                  (holding PYGAME_INPUT_TEXT []) ["3"; "."; "5"])).
  reflexivity.
Defined.



(** The cursor after [k] moves to the right from a position inside the
    text. *)
Lemma iter_move_cursor_right_cursor k (self : TextInput) :
  0 <= _cursor_position self <= len (_input_string self) ->
  _cursor_position (Nat.iter k _move_cursor_right self)
  = Z.min (_cursor_position self + Z.of_nat k) (len (_input_string self)).
Proof.
  intros Hc. induction k as [|k IH]; [cbn; lia|].
  rewrite Nat.iter_succ.
  destruct (iter_move_cursor_right_frame k self) as (_ & _ & _ & _ & _ & Hs).
  unfold _move_cursor_right at 1.
  match goal with
  | |- context [_update_renderbox ?t ?l ?r ?a ?e ?st] =>
      destruct (update_renderbox_shape t l r a e st) as [b Eb]; rewrite Eb
  end.
  cbn. rewrite IH, Hs. lia.
Qed.

Lemma iter_move_cursor_right_config k (self : TextInput) :
  _maxchar (Nat.iter k _move_cursor_right self) = _maxchar self
  /\ _maxwidth (Nat.iter k _move_cursor_right self) = _maxwidth self
  /\ _input_type (Nat.iter k _move_cursor_right self) = _input_type self.
Proof.
  induction k as [|k IH]; [cbn; tauto|].
  rewrite !Nat.iter_succ.
  destruct (move_cursor_right_shape (Nat.iter k _move_cursor_right self))
    as (b & c & E).
  rewrite E. cbn. exact IH.
Qed.

(** The first edition of a widget whose history is still empty. *)
Lemma update_input_string_first (t : TextInput) (s : str) :
  _history t = [] -> _history_cursor t = [] -> _history_renderbox t = [] ->
  _history_index t = 0 ->
  _update_input_string t s
  = Ok (if 0 <? _max_history t
        then with_history t [s] [_cursor_position t] [_renderbox t] 1 s
        else set_input_string t s).
Proof.
  destruct t as [? ? ? ? ? ? rb ? ? ? ? ? ? ? mh ? ? ? ?]. cbn.
  intros -> -> -> ->. destruct rb as [x y z].
  unfold _update_input_string, with_history.
  cbn [_update_input_string_fuel]. unfold store_edition, insert_at, clamp_bound, len.
  destruct mh as [|p|p]; cbn; try reflexivity.
  destruct p; reflexivity.
Qed.

Section Init.

Context {F : Type}.
Variable py_int : str -> option Z.
Variable py_float : str -> option F.
Variable ctrl : controls.

(** X20.  The constructor raises [ValueError] exactly when [maxchar],
    [maxwidth] or [history] is negative or the default text fails the
    check of the declared input type, and otherwise returns a widget
    that holds the default text with the cursor at its end, the limits
    and the type as given, and a history that is empty when
    [history = 0] and else holds the default text as its only edition,
    with the index just past it. *)
Theorem init_places_cursor_at_end (default : str) (ty : input_type)
    (history maxchar maxwidth : Z) (ell : str) :
  (__init__ py_int py_float ctrl default ty history maxchar maxwidth ell
   = Raise ValueError
   <-> maxchar < 0 \/ maxwidth < 0 \/ history < 0
       \/ _check_input_type py_int py_float (holding ty []) default = false)
  /\ (~ (maxchar < 0 \/ maxwidth < 0 \/ history < 0
         \/ _check_input_type py_int py_float (holding ty []) default = false) ->
      exists self,
        __init__ py_int py_float ctrl default ty history maxchar maxwidth ell
        = Ok self
        /\ _input_string self = default
        /\ _cursor_position self = len default
        /\ _maxchar self = maxchar /\ _maxwidth self = maxwidth
        /\ _input_type self = ty /\ _max_history self = history
        /\ _history self = (if 0 <? history then [default] else [])
        /\ _history_cursor self = (if 0 <? history then [len default] else [])
        /\ _history_index self = (if 0 <? history then 1 else 0)).
Proof.
  unfold __init__.
  destruct (Z.ltb_spec maxchar 0); [split; [tauto|intros H'; exfalso; tauto]|].
  destruct (Z.ltb_spec maxwidth 0); [split; [tauto|intros H'; exfalso; tauto]|].
  destruct (Z.ltb_spec history 0); [split; [tauto|intros H'; exfalso; tauto]|].
  match goal with
  | |- context [_check_input_type py_int py_float ?t default] =>
      change (_check_input_type py_int py_float t default)
        with (_check_input_type py_int py_float (holding ty []) default)
  end.
  destruct (_check_input_type py_int py_float (holding ty []) default);
    [|split; [tauto|intros H'; exfalso; tauto]].
  match goal with
  | |- context [Nat.iter ?k _move_cursor_right ?t] =>
      pose proof (iter_move_cursor_right_frame k t) as Hf;
      pose proof (iter_move_cursor_right_config k t) as Hg;
      pose proof (iter_move_cursor_right_cursor k t) as Hc;
      set (t1 := Nat.iter k _move_cursor_right t) in *
  end.
  cbn in Hf, Hg, Hc. destruct Hf as (F1 & F2 & F3 & F4 & F5 & F6).
  destruct Hg as (G1 & G2 & G3).
  pose proof (len_nonneg default) as Hl.
  rewrite (update_input_string_first t1 default F1 F2 F3 F4).
  split.
  - split; [discriminate|]. intros [?|[?|[?|?]]]; try lia; discriminate.
  - intros _. eexists. split; [reflexivity|].
    rewrite F5. destruct (Z.ltb_spec 0 history); cbn;
      rewrite ?Hc by lia; repeat split; try assumption; try lia;
      f_equal; lia.
Qed.

End Init.

Lemma init_places_cursor_at_end_witness :
  exists self,
    __init__ decimal_int decimal_float default_controls ["h"; "i"]
             PYGAME_INPUT_TEXT 50 0 0 ["."] = Ok self
    /\ _cursor_position self = 2 /\ _history self = [["h"; "i"]].
Proof.
  destruct (init_places_cursor_at_end decimal_int decimal_float default_controls
              ["h"; "i"] PYGAME_INPUT_TEXT 50 0 0 ["."]) as [_ H].
  destruct H as (self & E & _ & Hc & _ & _ & _ & _ & Hh & _).
  - intros [H|[H|[H|H]]]; try discriminate H.
  - exists self. split; [exact E|]. split; [exact Hc | exact Hh].
Defined.


End TextInputHistory.
